(** * nestjs-clickhouse: connection wiring, retry on start-up, shutdown

    A shallow embedding of the TypeScript sources under [lib/]:
    - [common/clickhouse.utils.ts]      ([getConnectionToken], [handleRetry]),
    - [common/clickhouse.decorators.ts] ([InjectClickHouse]),
    - [clickhouse-core.module.ts]       ([ClickHouseCoreModule]),
    - [clickhouse.module.ts]            ([ClickHouseModule]).

    The module calls three outside parties: the database client library
    ([createClient], [ping], [close]), the rxjs operators it pipes the probe
    through ([defer], [retry], [timer], [lastValueFrom]) and the framework
    logger.  Calls that leave the module are recorded, in order, in a trace
    of [Event]s; promises are computations that return their trace and the
    way they settle. *)

From Stdlib Require Import ZArith Lia.
From stdpp Require Import base strings gmap list pretty.

(** ** JavaScript data *)

Inductive JsValue :=
| JsUndefined
| JsNull
| JsBoolean (b : bool)
| JsNumber (n : Z)
| JsString (s : string).

(** A plain options object: property names to values. *)
Abbreviation JsObject := (gmap string JsValue).

(** An [Error] instance: the two properties the module reads. *)
Record JsError := { message : string; stack : string }.

(** Reading a property at its declared TypeScript type
    ([name?: string], [retryAttempts?: number], ...).  A missing property and
    a property holding [undefined] both read as [None]. *)
Definition stringProperty (o : JsObject) (key : string) : option string :=
  match o !! key with Some (JsString s) => Some s | _ => None end.

Definition numberProperty (o : JsObject) (key : string) : option Z :=
  match o !! key with Some (JsNumber n) => Some n | _ => None end.

Definition booleanProperty (o : JsObject) (key : string) : option bool :=
  match o !! key with Some (JsBoolean b) => Some b | _ => None end.

(** How a synchronous call ends. *)
Inductive Completion (A : Type) :=
| Normal (a : A)
| Throw (e : JsError).
Arguments Normal {A} a.
Arguments Throw {A} e.

(** How a promise ends.  [Pending] is a promise that never settles. *)
Inductive Outcome (A : Type) :=
| Resolved (a : A)
| Rejected (e : JsError)
| Pending.
Arguments Resolved {A} a.
Arguments Rejected {A} e.
Arguments Pending {A}.

(** ** The database client library, @clickhouse/client *)

(** [PingResult]: [{ success: true }] or [{ success: false, error }]. *)
Record PingResult := { success : bool; error : option JsError }.

(** A client handle is an object with two methods.  [ping i] is what the
    call number [i] (from 0) of [client.ping()] settles to; [close] is what
    [client.close()] settles to. *)
Record ClickHouseClient := {
  client_options : JsObject;
  ping : nat -> Completion PingResult;
  close : Completion unit
}.

(** The part of the outside world the module depends on: the library's
    constructor, and the stack the engine records in [new Error(message)]. *)
Class ClientLibrary := {
  createClient : JsObject -> Completion ClickHouseClient;
  captureStackTrace : string -> string
}.

(** [new Error(message)]; an [undefined] message gives the empty string. *)
Definition new_Error `{ClientLibrary} (msg : option string) : JsError :=
  let m := default EmptyString msg in
  {| message := m; stack := captureStackTrace m |}.

(** ** Traces and promises *)

Inductive Event :=
| EvCreateClient (options : JsObject)          (* createClient(options) *)
| EvPing (client : ClickHouseClient)           (* client.ping() *)
| EvClose (client : ClickHouseClient)          (* client.close() *)
| EvLoggerError (line : string) (trace : string) (* logger.error(line, trace) *)
| EvLoggerLog (line : string)                  (* logger.log(line) *)
| EvTimer (due : Z).                           (* timer(due) ran out *)

Definition Task (A : Type) : Type := list Event * Outcome A.

Global Instance Task_ret : MRet Task := λ A a, ([], Resolved a).

Global Instance Task_bind : MBind Task := λ A B k m,
  match m with
  | (t, Resolved a) => let '(t', r) := k a in (t ++ t', r)
  | (t, Rejected e) => (t, Rejected e)
  | (t, Pending) => (t, Pending)
  end.

Definition emit (ev : Event) : Task unit := ([ev], Resolved tt).

Definition reject {A} (e : JsError) : Task A := ([], Rejected e).

(** [await] on the result of a call of the outside world. *)
Definition await {A} (c : Completion A) : Task A :=
  match c with
  | Normal a => mret a
  | Throw e => reject e
  end.

Definition events {A} (m : Task A) : list Event := fst m.
Definition settled {A} (m : Task A) : Outcome A := snd m.

(** Counting boundary calls in a trace. *)
Definition isCreateClient (ev : Event) : bool :=
  match ev with EvCreateClient _ => true | _ => false end.
Definition isPing (ev : Event) : bool :=
  match ev with EvPing _ => true | _ => false end.
Definition isClose (ev : Event) : bool :=
  match ev with EvClose _ => true | _ => false end.
Definition isLoggerError (ev : Event) : bool :=
  match ev with EvLoggerError _ _ => true | _ => false end.
Definition isTimer (ev : Event) : bool :=
  match ev with EvTimer _ => true | _ => false end.

Definition countEvents (p : Event -> bool) (t : list Event) : nat :=
  length (List.filter p t).

(** ** rxjs: the operators the module uses *)

Module Rxjs.

(** A cold observable that emits at most one value: [source i] is what
    subscription number [i] (from 0) does and how it ends. *)
Definition Observable (A : Type) : Type := nat -> Task A.

(** [defer(async () => ...)]: each subscription runs the function again. *)
Definition defer {A} (factory : nat -> Task A) : Observable A := factory.

(** [timer(due)]: emits once when the delay has passed. *)
Definition timer (due : Z) : Task unit := emit (EvTimer due).

(** [RetryConfig]: [count] and the [delay] callback, which is given the
    error and the number of errors so far and returns the notifier. *)
Record RetryConfig := {
  count : Z;
  delay : JsError -> nat -> Task unit
}.

(** The body of [retry]: [subscribeForRetry] subscribes to the source; on
    an error it tests [soFar++ < count], and either calls [delay], waits
    for the notifier and subscribes again, or passes the error on.  Each
    earlier subscription ended in an error, so the subscription made when
    the counter is [soFar] is subscription number [soFar]. *)
Fixpoint subscribeForRetry {A} (config : RetryConfig) (source : Observable A)
    (fuel soFar : nat) : Task A :=
  let '(t, r) := source soFar in
  match r with
  | Rejected err =>
      if (Z.of_nat soFar <? count config)%Z then
        match fuel with
        | O => (t, Pending)
        | S fuel' =>
            let '(t', r') :=
              delay config err (S soFar) ≫= λ _,
              subscribeForRetry config source fuel' (S soFar) in
            (t ++ t', r')
        end
      else (t, Rejected err)
  | _ => (t, r)
  end.

(** [retry(config)]: the identity when [count <= 0]. *)
Definition retry {A} (config : RetryConfig) (source : Observable A)
    : Observable A :=
  if (count config <=? 0)%Z then source
  else λ _, subscribeForRetry config source (Z.to_nat (count config)) 0.

(** [lastValueFrom]: subscribes once; the promise settles as the
    observable ends. *)
Definition lastValueFrom {A} (source : Observable A) : Task A := source 0%nat.

End Rxjs.

(** ** common/clickhouse.utils.ts *)

(** Modelled from the spec: the default sentinel name of section 4.4.  Its
    declaration, [clickhouse.constants.ts], is not among the sources; the
    value is the one the sources document for it, in the comment of
    [getConnectionToken] and at [ClickHouseModuleOptions.name]. *)
Definition DEFAULT_CONNECTION_NAME : string := "DefaultClickHouseConnection".

Definition getConnectionToken (name : option string) : string :=
  match name with
  | None => DEFAULT_CONNECTION_NAME
  | Some name =>
      if String.eqb name DEFAULT_CONNECTION_NAME then DEFAULT_CONNECTION_NAME
      else name +:+ "ClickHouseConnection"
  end.

(** Numbers are the integers: the counts and milliseconds of a
    configuration. *)
Record HandleRetryOptions := {
  connectionName : option string;
  retryAttempts : option Z;
  retryDelay : option Z;
  verboseRetryLog : option bool
}.

(** The values after the defaults of the destructuring in [handleRetry]. *)
Definition effectiveConnectionName (options : HandleRetryOptions) : string :=
  default DEFAULT_CONNECTION_NAME (connectionName options).
Definition effectiveRetryAttempts (options : HandleRetryOptions) : Z :=
  default 10%Z (retryAttempts options).
Definition effectiveRetryDelay (options : HandleRetryOptions) : Z :=
  default 3000%Z (retryDelay options).
Definition effectiveVerboseRetryLog (options : HandleRetryOptions) : bool :=
  default false (verboseRetryLog options).

(** The line given to [logger.error] by the [delay] callback. *)
Definition retryLine (connectionName : string) (verboseRetryLog : bool)
    (error : JsError) (errorCount : nat) : string :=
  let connectionInfo :=
    if String.eqb connectionName DEFAULT_CONNECTION_NAME then EmptyString
    else " (" +:+ connectionName +:+ ")" in
  let verboseMessage :=
    if verboseRetryLog then " Message: " +:+ message error +:+ "."
    else EmptyString in
  "Unable to connect to ClickHouse" +:+ connectionInfo +:+ "."
    +:+ verboseMessage +:+ " Retrying (" +:+ pretty errorCount +:+ ")...".

(** The [delay] callback: one [logger.error], then [timer(retryDelay)]. *)
Definition retryDelayCallback (connectionName : string) (retryDelay : Z)
    (verboseRetryLog : bool) (error : JsError) (errorCount : nat)
    : Task unit :=
  emit (EvLoggerError
          (retryLine connectionName verboseRetryLog error errorCount)
          (stack error)) ≫= λ _,
  Rxjs.timer retryDelay.

Definition handleRetry {A} (options : option HandleRetryOptions)
    (source : Rxjs.Observable A) : Rxjs.Observable A :=
  let options :=
    default {| connectionName := None; retryAttempts := None;
               retryDelay := None; verboseRetryLog := None |} options in
  let connectionName := effectiveConnectionName options in
  let retryAttempts := effectiveRetryAttempts options in
  let retryDelay := effectiveRetryDelay options in
  let verboseRetryLog := effectiveVerboseRetryLog options in
  Rxjs.retry
    {| Rxjs.count := retryAttempts;
       Rxjs.delay := retryDelayCallback connectionName retryDelay
                       verboseRetryLog |}
    source.

(** ** The framework's injection vocabulary, @nestjs/common *)

Module Nest.

(** A reference to a class (here: one that implements
    [ClickHouseOptionsFactory]). *)
Definition ClassRef := string.

(** [CLICKHOUSE_CONNECTION_NAME] and [CLICKHOUSE_MODULE_OPTIONS] come from
    [clickhouse.constants.ts]; they are kept as two tokens of their own. *)
Inductive InjectionToken :=
| StringToken (s : string)
| ClassToken (c : ClassRef)
| CLICKHOUSE_CONNECTION_NAME
| CLICKHOUSE_MODULE_OPTIONS.

Inductive ParameterDecorator :=
| Inject (token : InjectionToken).

Definition tokenOf (d : ParameterDecorator) : InjectionToken :=
  match d with Inject token => token end.

(** [ClickHouseOptionsFactory]: one method, which returns the options or
    a promise of them. *)
Record ClickHouseOptionsFactory := {
  createClickHouseOptions : Task JsObject
}.

Inductive FactoryFunction :=
| ConnectionFactory (f : Task ClickHouseClient)
    (* () => createClickHouseClient(...) *)
| ConnectionFactoryOf (f : JsObject -> Task ClickHouseClient)
    (* (moduleOptions) => createClickHouseClient(...) *)
| OptionsFunction (f : list JsValue -> Task JsObject)
    (* options.useFactory *)
| OptionsDelegate (f : ClickHouseOptionsFactory -> Task JsObject).
    (* (factory) => factory.createClickHouseOptions() *)

(** A property that holds [undefined] is [None]. *)
Inductive Provider :=
| ValueProvider (provide : InjectionToken) (useValue : string)
| FactoryProvider (provide : InjectionToken) (useFactory : FactoryFunction)
    (inject : list (option InjectionToken))
| ClassProvider (provide : option ClassRef) (useClass : option ClassRef).

Record DynamicModule := {
  module : string;
  imports : list string;
  providers : list Provider;
  exports : list Provider
}.

(** [ModuleRef.get(token, { strict: false })] for a registered provider:
    the instance the container holds for it, [undefined] when its factory
    has not produced one. *)
Definition ModuleRef := gmap string ClickHouseClient.

Definition get (moduleRef : ModuleRef) (token : string)
    : option ClickHouseClient :=
  moduleRef !! token.

(** [callShutdownHook]: when the application shuts down, the host awaits
    the [onApplicationShutdown] hook of each module in turn (the hooks are
    not run in parallel); a hook whose promise is rejected ends the
    sequence with that fault. *)
Definition callShutdownHook (hooks : list (Task unit)) : Task unit :=
  foldr (λ hook later, hook ≫= λ _, later) (mret tt) hooks.

End Nest.

(** ** interfaces/clickhouse-module-options.interface.ts *)

(** [ClickHouseModuleOptions] is a [JsObject]: the vendor's fields and the
    optional [name], [retryAttempts], [retryDelay], [verboseRetryLog]. *)

Module Interfaces.

Record ClickHouseModuleAsyncOptions := {
  imports : option (list string);
  name : option string;
  useExisting : option Nest.ClassRef;
  useClass : option Nest.ClassRef;
  useFactory : option (list JsValue -> Task JsObject);
  inject : option (list (option Nest.InjectionToken))
}.

End Interfaces.

(** ** common/clickhouse.decorators.ts *)

Definition InjectClickHouse (name : option string) : Nest.ParameterDecorator :=
  Nest.Inject (Nest.StringToken (getConnectionToken name)).

(** ** clickhouse-core.module.ts *)

Module ClickHouseCoreModule.

Import Nest Interfaces.

(** The object rest of a destructuring: the properties not picked. *)
Definition rest (picked : list string) (o : JsObject) : JsObject :=
  foldr delete o picked.

Definition createClickHouseClient `{ClientLibrary}
    (clientOptions : JsObject) (retryOptions : HandleRetryOptions)
    : Task ClickHouseClient :=
  _ ← emit (EvCreateClient clientOptions);
  client ← await (createClient clientOptions);
  Rxjs.lastValueFrom
    (handleRetry (Some retryOptions)
       (Rxjs.defer (λ i,
          _ ← emit (EvPing client);
          result ← await (ping client i);
          if negb (success result)
          then reject (new_Error (message <$> error result))
          else mret client))).

(** The [useFactory] arrow of the connection provider of [forRoot]. *)
Definition forRoot_useFactory `{ClientLibrary} (options : JsObject)
    : Task ClickHouseClient :=
  let name := stringProperty options "name" in
  let retryAttempts := numberProperty options "retryAttempts" in
  let retryDelay := numberProperty options "retryDelay" in
  let verboseRetryLog := booleanProperty options "verboseRetryLog" in
  let clientOptions :=
    rest ["name"; "retryAttempts"; "retryDelay"; "verboseRetryLog"]
      options in
  let connectionName := getConnectionToken name in
  createClickHouseClient clientOptions
    {| connectionName := Some connectionName;
       retryAttempts := retryAttempts;
       retryDelay := retryDelay;
       verboseRetryLog := verboseRetryLog |}.

Definition forRoot `{ClientLibrary} (options : JsObject)
    : Completion DynamicModule :=
  let name := stringProperty options "name" in
  let connectionName := getConnectionToken name in
  let connectionNameProvider :=
    ValueProvider CLICKHOUSE_CONNECTION_NAME connectionName in
  let connectionProvider :=
    FactoryProvider (StringToken connectionName)
      (ConnectionFactory (forRoot_useFactory options)) [] in
  Normal
    {| module := "ClickHouseCoreModule";
       Nest.imports := [];
       providers := [connectionProvider; connectionNameProvider];
       exports := [connectionProvider] |}.

(** The [useFactory] arrow of the connection provider of
    [forRootAsync]. *)
Definition forRootAsync_useFactory `{ClientLibrary}
    (options : ClickHouseModuleAsyncOptions) (moduleOptions : JsObject)
    : Task ClickHouseClient :=
  let connectionName := getConnectionToken (name options) in
  let retryAttempts := numberProperty moduleOptions "retryAttempts" in
  let retryDelay := numberProperty moduleOptions "retryDelay" in
  let verboseRetryLog := booleanProperty moduleOptions "verboseRetryLog" in
  let clientOptions :=
    rest ["retryAttempts"; "retryDelay"; "verboseRetryLog"]
      moduleOptions in
  createClickHouseClient clientOptions
    {| connectionName := Some connectionName;
       retryAttempts := retryAttempts;
       retryDelay := retryDelay;
       verboseRetryLog := verboseRetryLog |}.

(** [a || b] on two optional references. *)
Definition orElse {A} (a b : option A) : option A :=
  match a with Some _ => a | None => b end.

Definition createAsyncOptionsProvider
    (options : ClickHouseModuleAsyncOptions) : Provider :=
  match useFactory options with
  | Some f =>
      FactoryProvider CLICKHOUSE_MODULE_OPTIONS (OptionsFunction f)
        (default [] (inject options))
  | None =>
      FactoryProvider CLICKHOUSE_MODULE_OPTIONS
        (OptionsDelegate (λ factory, createClickHouseOptions factory))
        [ClassToken <$> orElse (useExisting options) (useClass options)]
  end.

Definition createAsyncProviders (options : ClickHouseModuleAsyncOptions)
    : list Provider :=
  if bool_decide (is_Some (useExisting options))
     || bool_decide (is_Some (useFactory options))
  then [createAsyncOptionsProvider options]
  else [createAsyncOptionsProvider options;
        ClassProvider (useClass options) (useClass options)].

Definition forRootAsync `{ClientLibrary}
    (options : ClickHouseModuleAsyncOptions) : Completion DynamicModule :=
  let connectionName := getConnectionToken (name options) in
  let connectionNameProvider :=
    ValueProvider CLICKHOUSE_CONNECTION_NAME connectionName in
  let connectionProvider :=
    FactoryProvider (StringToken connectionName)
      (ConnectionFactoryOf (forRootAsync_useFactory options))
      [Some CLICKHOUSE_MODULE_OPTIONS] in
  Normal
    {| module := "ClickHouseCoreModule";
       Nest.imports := default [] (Interfaces.imports options);
       providers :=
         createAsyncProviders options
           ++ [connectionProvider; connectionNameProvider];
       exports := [connectionProvider] |}.

(** An instance of the class: its two constructor parameters. *)
Record Instance := {
  connectionName : string;
  moduleRef : ModuleRef
}.

Definition onApplicationShutdown (this : Instance) : Task unit :=
  let client := get (moduleRef this) (connectionName this) in
  match client with
  | Some client =>
      _ ← emit (EvLoggerLog
                 ("Closing ClickHouse connection ("
                    +:+ connectionName this +:+ ")"));
      _ ← emit (EvClose client);
      await (close client)
  | None => mret tt
  end.

End ClickHouseCoreModule.

(** ** clickhouse.module.ts *)

Module ClickHouseModule.

Record FacadeModule := {
  module : string;
  imports : list Nest.DynamicModule
}.

(** [forRoot(options = {})]. *)
Definition forRoot `{ClientLibrary} (options : option JsObject)
    : Completion FacadeModule :=
  let options := default ∅ options in
  match ClickHouseCoreModule.forRoot options with
  | Normal core =>
      Normal {| module := "ClickHouseModule"; imports := [core] |}
  | Throw e => Throw e
  end.

Definition forRootAsync `{ClientLibrary}
    (options : Interfaces.ClickHouseModuleAsyncOptions)
    : Completion FacadeModule :=
  match ClickHouseCoreModule.forRootAsync options with
  | Normal core =>
      Normal {| module := "ClickHouseModule"; imports := [core] |}
  | Throw e => Throw e
  end.

End ClickHouseModule.

(** ** Vocabulary of the properties *)

(** The probe of attempt [i] failed: [ping] rejected, or resolved with
    [success: false]. *)
Definition pingFailed (p : Completion PingResult) : bool :=
  match p with
  | Throw _ => true
  | Normal result => negb (success result)
  end.

(** The message of the fault a failed probe reported. *)
Definition faultMessage (p : Completion PingResult) : string :=
  match p with
  | Throw e => message e
  | Normal result => default EmptyString (message <$> error result)
  end.

(** The error a failed probe leaves the deferred source with. *)
Definition probeError `{ClientLibrary} (p : Completion PingResult) : JsError :=
  match p with
  | Throw e => e
  | Normal result => new_Error (message <$> error result)
  end.

(** Application shutdown for the registered connections: the hooks of
    their module instances, in the host's sequence. *)
Definition applicationShutdown
    (instances : list ClickHouseCoreModule.Instance) : Task unit :=
  Nest.callShutdownHook
    (ClickHouseCoreModule.onApplicationShutdown <$> instances).

(** The container holds a handle for the connection of the instance. *)
Definition holdsHandle (this : ClickHouseCoreModule.Instance) : bool :=
  match Nest.get (ClickHouseCoreModule.moduleRef this)
          (ClickHouseCoreModule.connectionName this) with
  | Some _ => true
  | None => false
  end.

(** [needle] occurs in [line]. *)
Definition occursIn (needle line : string) : Prop :=
  ∃ before after, line = before +:+ needle +:+ after.

(** What one retried failure adds to the trace: the probe, the error line
    and the timer. *)
Definition retryRound (client : ClickHouseClient) (options : HandleRetryOptions)
    (e : JsError) (i : nat) : list Event :=
  [EvPing client;
   EvLoggerError
     (retryLine (effectiveConnectionName options)
        (effectiveVerboseRetryLog options) e (S i))
     (stack e);
   EvTimer (effectiveRetryDelay options)].

(** The deferred source of [createClickHouseClient], for a client. *)
Definition probe `{ClientLibrary} (client : ClickHouseClient)
    : Rxjs.Observable ClickHouseClient :=
  Rxjs.defer (λ i,
    _ ← emit (EvPing client);
    result ← await (ping client i);
    if negb (success result)
    then reject (new_Error (message <$> error result))
    else mret client).

(** The configuration [handleRetry] hands to [retry]. *)
Definition retryConfig (options : HandleRetryOptions) : Rxjs.RetryConfig :=
  {| Rxjs.count := effectiveRetryAttempts options;
     Rxjs.delay :=
       retryDelayCallback (effectiveConnectionName options)
         (effectiveRetryDelay options) (effectiveVerboseRetryLog options) |}.

(** ** Clients and libraries to run the definitions on *)

Definition refused (msg : string) : Completion PingResult :=
  Normal {| success := false;
            error := Some {| message := msg; stack := "Error: " +:+ msg |} |}.

Definition pong : Completion PingResult :=
  Normal {| success := true; error := None |}.

(** A client whose first [failures] probes are refused. *)
Definition flakyClient (failures : nat) (closing : Completion unit)
    (options : JsObject) : ClickHouseClient :=
  {| client_options := options;
     ping := λ i, if (i <? failures)%nat then refused "ECONNREFUSED" else pong;
     close := closing |}.

(** A client that is never reachable. *)
Definition downClient (options : JsObject) : ClickHouseClient :=
  {| client_options := options;
     ping := λ _, refused "ECONNREFUSED";
     close := Normal tt |}.

Definition flakyLibrary (failures : nat) : ClientLibrary :=
  {| createClient := λ options, Normal (flakyClient failures (Normal tt) options);
     captureStackTrace := λ m, "Error: " +:+ m |}.

Definition downLibrary : ClientLibrary :=
  {| createClient := λ options, Normal (downClient options);
     captureStackTrace := λ m, "Error: " +:+ m |}.

Definition retryOptionsOf (attempts : option Z) : HandleRetryOptions :=
  {| connectionName := None; retryAttempts := attempts;
     retryDelay := Some 0%Z; verboseRetryLog := None |}.

(** One retry allowed, the server never reachable. *)
Definition downRun : Task ClickHouseClient :=
  @ClickHouseCoreModule.createClickHouseClient downLibrary ∅
    (retryOptionsOf (Some 1%Z)).

(** Three retries allowed, the first probe refused, the second answered. *)
Definition flakyRun : Task ClickHouseClient :=
  @ClickHouseCoreModule.createClickHouseClient (flakyLibrary 1) ∅
    (retryOptionsOf (Some 3%Z)).

(** A handle whose [close] fails, and module instances at shutdown. *)
Definition hangUp : JsError :=
  {| message := "socket hang up"; stack := "Error: socket hang up" |}.

Definition brokenClient : ClickHouseClient :=
  flakyClient 0 (Throw hangUp) ∅.

Definition healthyClient : ClickHouseClient :=
  flakyClient 0 (Normal tt) ∅.

Definition brokenInstance : ClickHouseCoreModule.Instance :=
  {| ClickHouseCoreModule.connectionName := DEFAULT_CONNECTION_NAME;
     ClickHouseCoreModule.moduleRef :=
       {[ DEFAULT_CONNECTION_NAME := brokenClient ]} |}.

Definition healthyInstance : ClickHouseCoreModule.Instance :=
  {| ClickHouseCoreModule.connectionName := "logsClickHouseConnection";
     ClickHouseCoreModule.moduleRef :=
       {[ "logsClickHouseConnection" := healthyClient ]} |}.

(** The connection provider is registered, its factory gave no handle. *)
Definition idleInstance : ClickHouseCoreModule.Instance :=
  {| ClickHouseCoreModule.connectionName := "logsClickHouseConnection";
     ClickHouseCoreModule.moduleRef := ∅ |}.

(** An asynchronous registration that supplies no way to get options. *)
Definition bareAsyncOptions : Interfaces.ClickHouseModuleAsyncOptions :=
  {| Interfaces.imports := None; Interfaces.name := None;
     Interfaces.useExisting := None; Interfaces.useClass := None;
     Interfaces.useFactory := None; Interfaces.inject := None |}.

(** Options a deferred configuration may resolve to. *)
Definition namedModuleOptions : JsObject :=
  <["name" := JsString "logs"]>
    (<["url" := JsString "http://localhost:8123"]>
       (<["retryAttempts" := JsNumber 3]> ∅)).


(** A library whose constructor rejects the configuration. *)
Definition invalidUrl : JsError :=
  {| message := "Invalid URL"; stack := "TypeError: Invalid URL" |}.

Definition strictLibrary : ClientLibrary :=
  {| createClient := λ _, Throw invalidUrl;
     captureStackTrace := λ m, "Error: " +:+ m |}.

(** The error line of failure number [i + 1] of a client's probe. *)
Definition retryLineEvent `{ClientLibrary} (client : ClickHouseClient)
    (options : HandleRetryOptions) (i : nat) : Event :=
  EvLoggerError
    (retryLine (effectiveConnectionName options)
       (effectiveVerboseRetryLog options) (probeError (ping client i)) (S i))
    (stack (probeError (ping client i))).

(** Configurations and registrations to run the registration on. *)
Definition urlOptions : JsObject :=
  {[ "url" := JsString "http://localhost:8123" ]}.

Definition logsOptions : JsObject :=
  <["name" := JsString "logs"]> urlOptions.

Definition logsAsyncOptions : Interfaces.ClickHouseModuleAsyncOptions :=
  {| Interfaces.imports := None; Interfaces.name := Some "logs";
     Interfaces.useExisting := None;
     Interfaces.useClass := Some "ClickHouseConfigService";
     Interfaces.useFactory := Some (λ _, mret urlOptions);
     Interfaces.inject := None |}.

(** * Properties *)

(** ** Traces *)

Lemma task_eta {A} (m : Task A) : (events m, settled m) = m.
Proof. by destruct m. Qed.

Lemma countEvents_app p (t1 t2 : list Event) :
  countEvents p (t1 ++ t2) = (countEvents p t1 + countEvents p t2)%nat.
Proof. unfold countEvents. by rewrite List.filter_app, length_app. Qed.

Lemma countEvents_cons p ev (t : list Event) :
  countEvents p (ev :: t) = ((if p ev then 1 else 0) + countEvents p t)%nat.
Proof. unfold countEvents. simpl. by destruct (p ev). Qed.

Lemma bind_emit {B} ev (k : unit -> Task B) :
  emit ev ≫= k = (ev :: events (k tt), settled (k tt)).
Proof. unfold mbind, Task_bind, emit. by destruct (k tt). Qed.

Lemma bind_ret {A B} (a : A) (k : A -> Task B) : mret a ≫= k = k a.
Proof. unfold mbind, mret, Task_bind, Task_ret. by destruct (k a). Qed.

Lemma bind_reject {A B} e (k : A -> Task B) : reject e ≫= k = reject e.
Proof. reflexivity. Qed.

(** A trace made of rounds that each hold [n] events of a kind holds
    [n] of them per round. *)
Lemma countEvents_rounds p (round : nat -> list Event) (n : nat) (l : list nat) :
  (∀ i, countEvents p (round i) = n) →
  countEvents p (flat_map round l) = (n * length l)%nat.
Proof.
  intros Hround. induction l as [|i l IH]; simpl.
  - unfold countEvents. simpl. lia.
  - rewrite countEvents_app, Hround, IH. lia.
Qed.

(** ** The retry loop of rxjs *)

Section RetryLoop.

Context {A : Type} (config : Rxjs.RetryConfig) (source : Rxjs.Observable A).

Lemma subscribeForRetry_value fuel s t a :
  source s = (t, Resolved a) →
  Rxjs.subscribeForRetry config source fuel s = (t, Resolved a).
Proof. intros Hs. destruct fuel; simpl; by rewrite Hs. Qed.

Lemma subscribeForRetry_exhausted fuel s t e :
  source s = (t, Rejected e) →
  (Rxjs.count config ≤ Z.of_nat s)%Z →
  Rxjs.subscribeForRetry config source fuel s = (t, Rejected e).
Proof.
  intros Hs Hcount.
  assert ((Z.of_nat s <? Rxjs.count config)%Z = false) as Htest
    by (apply Z.ltb_ge; lia).
  destruct fuel; simpl; by rewrite Hs, Htest.
Qed.

Lemma subscribeForRetry_again fuel s t e td :
  source s = (t, Rejected e) →
  (Z.of_nat s < Rxjs.count config)%Z →
  Rxjs.delay config e (S s) = (td, Resolved tt) →
  Rxjs.subscribeForRetry config source (S fuel) s =
    (t ++ td ++ events (Rxjs.subscribeForRetry config source fuel (S s)),
     settled (Rxjs.subscribeForRetry config source fuel (S s))).
Proof.
  intros Hs Hcount Hdelay.
  assert ((Z.of_nat s <? Rxjs.count config)%Z = true) as Htest
    by (apply Z.ltb_lt; lia).
  simpl. rewrite Hs, Htest, Hdelay.
  unfold mbind, Task_bind.
  by destruct (Rxjs.subscribeForRetry config source fuel (S s)).
Qed.

(** [retry] subscribes through [subscribeForRetry] also when it is the
    identity. *)
Lemma retry_loop :
  Rxjs.retry config source 0%nat =
  Rxjs.subscribeForRetry config source (Z.to_nat (Rxjs.count config)) 0.
Proof.
  unfold Rxjs.retry. destruct (Z.leb_spec (Rxjs.count config) 0) as [Hle|Hgt].
  - destruct (source 0%nat) as [t [a|e|]] eqn:Hs.
    + by rewrite (subscribeForRetry_value _ _ t a).
    + by rewrite (subscribeForRetry_exhausted _ 0%nat t e Hs Hle).
    + destruct (Z.to_nat (Rxjs.count config)); simpl; by rewrite Hs.
  - done.
Qed.

Variables (tr td : nat -> list Event) (err : nat -> JsError).

(** [j] failures in a row from subscription [s] on, each of them
    retried: [j] rounds, and the loop goes on at [s + j]. *)
Lemma subscribeForRetry_rounds j : ∀ fuel s,
  (∀ i, (s ≤ i < s + j)%nat →
     source i = (tr i, Rejected (err i))
     ∧ Rxjs.delay config (err i) (S i) = (td i, Resolved tt)
     ∧ (Z.of_nat i < Rxjs.count config)%Z) →
  Rxjs.subscribeForRetry config source (j + fuel) s =
    (flat_map (λ i, tr i ++ td i) (seq s j)
       ++ events (Rxjs.subscribeForRetry config source fuel (s + j)),
     settled (Rxjs.subscribeForRetry config source fuel (s + j))).
Proof.
  induction j as [|j IH]; intros fuel s Hfail.
  - simpl. rewrite Nat.add_0_r. symmetry. apply task_eta.
  - destruct (Hfail s ltac:(lia)) as (Hs & Hd & Hc).
    change (S j + fuel)%nat with (S (j + fuel)).
    rewrite (subscribeForRetry_again _ s _ _ _ Hs Hc Hd).
    rewrite (IH fuel (S s)) by (intros i Hi; apply Hfail; lia).
    unfold events, settled. simpl.
    replace (S (s + j)) with (s + S j)%nat by lia.
    by rewrite <- !app_assoc.
Qed.

(** The loop settles when the source and the notifier do and the fuel
    covers the retries left. *)
Lemma subscribeForRetry_settles fuel : ∀ s,
  (∀ i, settled (source i) ≠ Pending) →
  (∀ e i, settled (Rxjs.delay config e i) = Resolved tt) →
  (Rxjs.count config - Z.of_nat s ≤ Z.of_nat fuel)%Z →
  settled (Rxjs.subscribeForRetry config source fuel s) ≠ Pending.
Proof.
  induction fuel as [|fuel IH]; intros s Hsrc Hdelay Hfuel;
    pose proof (Hsrc s) as Hnp;
    destruct (source s) as [t [a|e|]] eqn:Hs; try done.
  - by rewrite (subscribeForRetry_value _ _ t a).
  - by rewrite (subscribeForRetry_exhausted 0 s t e Hs ltac:(lia)).
  - by rewrite (subscribeForRetry_value _ _ t a).
  - destruct (Z.lt_ge_cases (Z.of_nat s) (Rxjs.count config)) as [Hlt|Hge].
    + pose proof (Hdelay e (S s)) as Hd.
      destruct (Rxjs.delay config e (S s)) as [d o] eqn:Hd'.
      simpl in Hd. subst o.
      rewrite (subscribeForRetry_again _ _ _ _ _ Hs Hlt Hd').
      apply IH; [done | done | lia].
    + by rewrite (subscribeForRetry_exhausted _ s t e Hs Hge).
Qed.

End RetryLoop.

(** ** The connection factory *)

Section ConnectionFactory.

Import ClickHouseCoreModule.

Context `{library : ClientLibrary}.

Lemma handleRetry_config {A} options (source : Rxjs.Observable A) :
  handleRetry (Some options) source = Rxjs.retry (retryConfig options) source.
Proof. reflexivity. Qed.

Lemma probe_failed client i :
  pingFailed (ping client i) = true →
  probe client i = ([EvPing client], Rejected (probeError (ping client i))).
Proof.
  unfold probe, Rxjs.defer. destruct (ping client i) as [[[] e]|e]; by simpl.
Qed.

Lemma probe_succeeded client i :
  pingFailed (ping client i) = false →
  probe client i = ([EvPing client], Resolved client).
Proof.
  unfold probe, Rxjs.defer. destruct (ping client i) as [[[] e]|e]; by simpl.
Qed.

Lemma probe_settles client i : settled (probe client i) ≠ Pending.
Proof.
  destruct (pingFailed (ping client i)) eqn:Hp.
  - by rewrite probe_failed.
  - by rewrite probe_succeeded.
Qed.

Lemma probeError_message p : message (probeError p) = faultMessage p.
Proof. by destruct p as [[s [e|]]|e]. Qed.

Lemma retryDelayCallback_round client options e i :
  Rxjs.delay (retryConfig options) e (S i) =
    (tail (retryRound client options e i), Resolved tt).
Proof. reflexivity. Qed.

(** The factory constructs once, then runs the retry loop on the probe. *)
Lemma createClickHouseClient_loop clientOptions retryOptions client :
  createClient clientOptions = Normal client →
  createClickHouseClient clientOptions retryOptions =
    (EvCreateClient clientOptions
       :: events (Rxjs.subscribeForRetry (retryConfig retryOptions)
                    (probe client)
                    (Z.to_nat (effectiveRetryAttempts retryOptions)) 0),
     settled (Rxjs.subscribeForRetry (retryConfig retryOptions)
                (probe client)
                (Z.to_nat (effectiveRetryAttempts retryOptions)) 0)).
Proof.
  intros Hcreate. unfold createClickHouseClient.
  rewrite Hcreate, bind_emit. simpl await. rewrite bind_ret.
  rewrite handleRetry_config. unfold Rxjs.lastValueFrom.
  fold (probe client). by rewrite retry_loop.
Qed.

(** The first boundary call of the factory is the construction, with
    the options it was given, whatever follows. *)
Lemma createClickHouseClient_constructs clientOptions retryOptions :
  ∃ t, events (createClickHouseClient clientOptions retryOptions)
       = EvCreateClient clientOptions :: t.
Proof.
  destruct (createClient clientOptions) as [client|e] eqn:Hcreate.
  - rewrite (createClickHouseClient_loop _ _ client Hcreate). by eexists.
  - unfold createClickHouseClient. rewrite Hcreate, bind_emit. by eexists.
Qed.

(** The promise of the factory settles, the constructor and every probe
    being calls that settle. *)
Lemma createClickHouseClient_settles clientOptions retryOptions :
  settled (createClickHouseClient clientOptions retryOptions) ≠ Pending.
Proof.
  destruct (createClient clientOptions) as [client|e] eqn:Hcreate.
  - rewrite (createClickHouseClient_loop _ _ client Hcreate). simpl.
    apply subscribeForRetry_settles.
    + apply probe_settles.
    + done.
    + simpl. lia.
  - unfold createClickHouseClient. by rewrite Hcreate, bind_emit.
Qed.

(** [j] failed probes in a row, all of them retried. *)
Lemma probe_rounds client options j fuel :
  (∀ i, (i < j)%nat → pingFailed (ping client i) = true) →
  (j ≤ Z.to_nat (effectiveRetryAttempts options))%nat →
  Rxjs.subscribeForRetry (retryConfig options) (probe client) (j + fuel) 0 =
    (flat_map (λ i, retryRound client options (probeError (ping client i)) i)
       (seq 0 j)
       ++ events (Rxjs.subscribeForRetry (retryConfig options)
                    (probe client) fuel j),
     settled (Rxjs.subscribeForRetry (retryConfig options)
                (probe client) fuel j)).
Proof.
  intros Hfail Hcount.
  rewrite (subscribeForRetry_rounds (retryConfig options) (probe client)
             (λ _, [EvPing client])
             (λ i, tail (retryRound client options
                           (probeError (ping client i)) i))
             (λ i, probeError (ping client i)) j fuel 0).
  - done.
  - intros i Hi. split_and!.
    + apply probe_failed, Hfail. lia.
    + apply retryDelayCallback_round.
    + simpl. lia.
Qed.

(** Every subscription of the loop starts with a probe. *)
Lemma loop_starts_with_probe client options fuel s :
  ∃ after,
    events (Rxjs.subscribeForRetry (retryConfig options) (probe client) fuel s)
    = EvPing client :: after.
Proof.
  destruct (pingFailed (ping client s)) eqn:Hp.
  - pose proof (probe_failed client s Hp) as Hs.
    destruct (Z.lt_ge_cases (Z.of_nat s) (effectiveRetryAttempts options))
      as [Hlt|Hge].
    + destruct fuel as [|fuel].
      * simpl. rewrite Hs.
        destruct (Z.of_nat s <? effectiveRetryAttempts options)%Z;
          by eexists.
      * rewrite (subscribeForRetry_again (retryConfig options) (probe client)
                   fuel s _ _ _ Hs Hlt
                   (retryDelayCallback_round client options _ s)).
        by eexists.
    + rewrite (subscribeForRetry_exhausted (retryConfig options)
                 (probe client) fuel s _ _ Hs Hge).
      by eexists.
  - rewrite (subscribeForRetry_value (retryConfig options) (probe client)
               fuel s _ _ (probe_succeeded client s Hp)).
    by eexists.
Qed.

(** The whole run when every probe fails. *)
Lemma createClickHouseClient_all_failed clientOptions retryOptions client :
  createClient clientOptions = Normal client →
  (∀ i, pingFailed (ping client i) = true) →
  createClickHouseClient clientOptions retryOptions =
    (EvCreateClient clientOptions
       :: flat_map
            (λ i, retryRound client retryOptions
                    (probeError (ping client i)) i)
            (seq 0 (Z.to_nat (effectiveRetryAttempts retryOptions)))
       ++ [EvPing client],
     Rejected
       (probeError
          (ping client (Z.to_nat (effectiveRetryAttempts retryOptions))))).
Proof.
  intros Hcreate Hfail.
  rewrite (createClickHouseClient_loop _ _ client Hcreate).
  set (n := Z.to_nat (effectiveRetryAttempts retryOptions)).
  pose proof (probe_rounds client retryOptions n 0
                (λ i _, Hfail i) ltac:(done)) as Hrounds.
  rewrite Nat.add_0_r in Hrounds. rewrite Hrounds.
  by rewrite (subscribeForRetry_exhausted (retryConfig retryOptions)
                (probe client) 0 n _ _ (probe_failed client n (Hfail n))
                ltac:(simpl; lia)).
Qed.

(** The whole run when the probe fails [k] times, fewer than the
    retries allowed, and then succeeds. *)
Lemma createClickHouseClient_recovers clientOptions retryOptions client k :
  createClient clientOptions = Normal client →
  (Z.of_nat k < effectiveRetryAttempts retryOptions)%Z →
  (∀ i, (i < k)%nat → pingFailed (ping client i) = true) →
  pingFailed (ping client k) = false →
  createClickHouseClient clientOptions retryOptions =
    (EvCreateClient clientOptions
       :: flat_map
            (λ i, retryRound client retryOptions
                    (probeError (ping client i)) i)
            (seq 0 k)
       ++ [EvPing client],
     Resolved client).
Proof.
  intros Hcreate Hk Hfail Hok.
  rewrite (createClickHouseClient_loop _ _ client Hcreate).
  set (n := Z.to_nat (effectiveRetryAttempts retryOptions)).
  pose proof (probe_rounds client retryOptions k (n - k)
                Hfail ltac:(lia)) as Hrounds.
  replace (k + (n - k))%nat with n in Hrounds by lia. rewrite Hrounds.
  by rewrite (subscribeForRetry_value (retryConfig retryOptions)
                (probe client) (n - k) k _ _ (probe_succeeded client k Hok)).
Qed.

Lemma countEvents_retryRounds p n client options (err : nat -> JsError) l :
  (∀ e i, countEvents p (retryRound client options e i) = n) →
  countEvents p (flat_map (λ i, retryRound client options (err i) i) l)
  = (n * length l)%nat.
Proof. intros Hround. by apply countEvents_rounds. Qed.

End ConnectionFactory.

(** ** Strings *)

Lemma string_app_cons a s t : String a s +:+ t = String a (s +:+ t).
Proof. reflexivity. Qed.

Lemma string_app_assoc s1 s2 s3 : (s1 +:+ s2) +:+ s3 = s1 +:+ (s2 +:+ s3).
Proof.
  induction s1 as [|a s1 IH]; [done|].
  by rewrite !string_app_cons, IH.
Qed.

Lemma string_length_app s1 s2 :
  String.length (s1 +:+ s2) = (String.length s1 + String.length s2)%nat.
Proof.
  induction s1 as [|a s1 IH]; [done|].
  rewrite string_app_cons. simpl. by rewrite IH.
Qed.

(** A common suffix cancels. *)
Lemma string_app_inj_r s1 s2 t : s1 +:+ t = s2 +:+ t → s1 = s2.
Proof.
  revert s2. induction s1 as [|a s1 IH]; intros [|b s2] Heq; [done|..].
  - apply (f_equal String.length) in Heq.
    rewrite !string_length_app in Heq. simpl in Heq. lia.
  - apply (f_equal String.length) in Heq.
    rewrite !string_length_app in Heq. simpl in Heq. lia.
  - rewrite !string_app_cons in Heq. injection Heq as -> Heq.
    f_equal. by apply IH.
Qed.

Lemma occursIn_middle before needle after :
  occursIn needle (before +:+ needle +:+ after).
Proof. by exists before, after. Qed.

(** The error line holds the counter, and the message when verbose. *)
Lemma retryLine_count connectionName verbose e n :
  occursIn (pretty n) (retryLine connectionName verbose e n).
Proof.
  unfold retryLine.
  set (info := if String.eqb _ _ then _ else _).
  set (detail := if verbose then _ else _).
  exists ("Unable to connect to ClickHouse" +:+ info +:+ "." +:+ detail
            +:+ " Retrying ("), ")...".
  by rewrite !string_app_assoc.
Qed.

Lemma retryLine_verbose connectionName e n :
  occursIn (message e) (retryLine connectionName true e n).
Proof.
  unfold retryLine.
  set (info := if String.eqb _ _ then _ else _).
  exists ("Unable to connect to ClickHouse" +:+ info +:+ "." +:+ " Message: "),
    ("." +:+ " Retrying (" +:+ pretty n +:+ ")...").
  by rewrite !string_app_assoc.
Qed.

Lemma retryLine_terse connectionName e e' n :
  retryLine connectionName false e n = retryLine connectionName false e' n.
Proof. reflexivity. Qed.

(** ** Start-up: retries, exhaustion, success *)

Section StartUp.

Import ClickHouseCoreModule.

Context `{library : ClientLibrary}.

(** C1 (amended).  When the liveness probe always fails, the factory
    constructs the client once and makes exactly [retryAttempts + 1] probe
    attempts, the first one and [retryAttempts] retries (a single attempt
    when [retryAttempts] is not positive); it logs one line per retry, and
    its promise is rejected with the error of the last probe, which carries
    the message of that probe's fault.  No handle is returned. *)
Theorem always_failing_probe_exhausts_retries
    clientOptions retryOptions client :
  createClient clientOptions = Normal client →
  (∀ i, pingFailed (ping client i) = true) →
  ∃ e,
    settled (createClickHouseClient clientOptions retryOptions) = Rejected e
    ∧ message e
      = faultMessage
          (ping client (Z.to_nat (effectiveRetryAttempts retryOptions)))
    ∧ countEvents isPing
        (events (createClickHouseClient clientOptions retryOptions))
      = S (Z.to_nat (effectiveRetryAttempts retryOptions))
    ∧ countEvents isLoggerError
        (events (createClickHouseClient clientOptions retryOptions))
      = Z.to_nat (effectiveRetryAttempts retryOptions)
    ∧ countEvents isCreateClient
        (events (createClickHouseClient clientOptions retryOptions))
      = 1%nat.
Proof.
  intros Hcreate Hfail.
  rewrite (createClickHouseClient_all_failed _ _ client Hcreate Hfail).
  eexists. split; [reflexivity|].
  split; [apply probeError_message|].
  cbn [events settled fst snd].
  rewrite !countEvents_cons, !countEvents_app.
  rewrite (countEvents_retryRounds isPing 1) by done.
  rewrite (countEvents_retryRounds isLoggerError 1) by done.
  rewrite (countEvents_retryRounds isCreateClient 0) by done.
  rewrite length_seq. cbn. lia.
Qed.

(** C2 (amended).  When the liveness probe fails exactly [k] times, with
    [k < retryAttempts], and then succeeds, the factory returns the handle
    it constructed and verified, after exactly one construction and exactly
    [k + 1] probe attempts, and it logs exactly [k] retries (each followed
    by one wait). *)
Theorem flaky_probe_resolves_after_retries
    clientOptions retryOptions client (k : nat) :
  createClient clientOptions = Normal client →
  (Z.of_nat k < effectiveRetryAttempts retryOptions)%Z →
  (∀ i, (i < k)%nat → pingFailed (ping client i) = true) →
  pingFailed (ping client k) = false →
  settled (createClickHouseClient clientOptions retryOptions)
    = Resolved client
  ∧ countEvents isCreateClient
      (events (createClickHouseClient clientOptions retryOptions)) = 1%nat
  ∧ countEvents isPing
      (events (createClickHouseClient clientOptions retryOptions)) = S k
  ∧ countEvents isLoggerError
      (events (createClickHouseClient clientOptions retryOptions)) = k
  ∧ countEvents isTimer
      (events (createClickHouseClient clientOptions retryOptions)) = k.
Proof.
  intros Hcreate Hk Hfail Hok.
  rewrite (createClickHouseClient_recovers _ _ client k Hcreate Hk Hfail Hok).
  split; [reflexivity|].
  cbn [events settled fst snd].
  rewrite !countEvents_cons, !countEvents_app.
  rewrite (countEvents_retryRounds isPing 1) by done.
  rewrite (countEvents_retryRounds isLoggerError 1) by done.
  rewrite (countEvents_retryRounds isTimer 1) by done.
  rewrite (countEvents_retryRounds isCreateClient 0) by done.
  rewrite length_seq. cbn. lia.
Qed.

(** C9 (amended).  For every failed probe attempt that is retried, that
    is, each of the first [retryAttempts] failures, exactly one error line
    is logged between that probe and the next one; the line holds the
    number of the failure, it holds the probe's failure message when
    verbose logging is on and does not depend on the failure when it is
    off; after the line the retry waits the configured delay, and the next
    probe follows.  (The failure that uses up the retries is passed on
    without a line.) *)
Theorem retried_failure_logged_once_then_waits
    clientOptions retryOptions client (i : nat) :
  createClient clientOptions = Normal client →
  (∀ j, (j ≤ i)%nat → pingFailed (ping client j) = true) →
  (Z.of_nat i < effectiveRetryAttempts retryOptions)%Z →
  ∃ line,
    line = retryLine (effectiveConnectionName retryOptions)
             (effectiveVerboseRetryLog retryOptions)
             (probeError (ping client i)) (S i)
    ∧ (∃ before after,
         events (createClickHouseClient clientOptions retryOptions)
         = before
             ++ [EvPing client;
                 EvLoggerError line (stack (probeError (ping client i)));
                 EvTimer (effectiveRetryDelay retryOptions)]
             ++ EvPing client :: after
         ∧ countEvents isPing before = i
         ∧ countEvents isLoggerError before = i)
    ∧ occursIn (pretty (S i)) line
    ∧ (effectiveVerboseRetryLog retryOptions = true →
       occursIn (faultMessage (ping client i)) line)
    ∧ (effectiveVerboseRetryLog retryOptions = false →
       ∀ other, line = retryLine (effectiveConnectionName retryOptions)
                         false other (S i)).
Proof.
  intros Hcreate Hfail Hi. eexists. split; [reflexivity|]. split_and!.
  - set (n := Z.to_nat (effectiveRetryAttempts retryOptions)).
    rewrite (createClickHouseClient_loop _ _ client Hcreate). fold n.
    pose proof (probe_rounds client retryOptions i (S (n - S i))
                  (λ j Hj, Hfail j ltac:(lia)) ltac:(lia)) as Hrounds.
    replace (i + S (n - S i))%nat with n in Hrounds by lia.
    rewrite Hrounds. clear Hrounds.
    rewrite (subscribeForRetry_again (retryConfig retryOptions)
               (probe client) (n - S i) i _ _ _
               (probe_failed client i (Hfail i ltac:(lia))) Hi
               (retryDelayCallback_round client retryOptions _ i)).
    destruct (loop_starts_with_probe client retryOptions (n - S i) (S i))
      as [after Hafter].
    cbn [events settled fst snd] in *. rewrite Hafter.
    eexists (EvCreateClient clientOptions :: _), after.
    split; [reflexivity|].
    rewrite !countEvents_cons.
    rewrite (countEvents_retryRounds isPing 1) by done.
    rewrite (countEvents_retryRounds isLoggerError 1) by done.
    rewrite length_seq. cbn. lia.
  - apply retryLine_count.
  - intros ->. rewrite <- probeError_message. apply retryLine_verbose.
  - intros -> other. apply retryLine_terse.
Qed.

End StartUp.

(** Witnesses and counterexamples of the start-up properties. *)

Lemma always_failing_probe_exhausts_retries_witness :
  ∃ e,
    settled downRun = Rejected e
    ∧ message e = faultMessage (ping (downClient ∅) 1)
    ∧ countEvents isPing (events downRun) = 2%nat
    ∧ countEvents isLoggerError (events downRun) = 1%nat
    ∧ countEvents isCreateClient (events downRun) = 1%nat.
Proof.
  apply (@always_failing_probe_exhausts_retries downLibrary ∅
           (retryOptionsOf (Some 1%Z)) (downClient ∅)).
  - reflexivity.
  - intros i. reflexivity.
Defined.

(** C1, as stated, fails: with one retry allowed and a server that is never
    reachable there are two probe attempts, not one. *)
Lemma always_failing_probe_attempts_counterexample :
  @createClient downLibrary ∅ = Normal (downClient ∅)
  ∧ (∀ i, pingFailed (ping (downClient ∅) i) = true)
  ∧ effectiveRetryAttempts (retryOptionsOf (Some 1%Z)) = 1%Z
  ∧ countEvents isPing (events downRun) = 2%nat
  ∧ countEvents isPing (events downRun)
    ≠ Z.to_nat (effectiveRetryAttempts (retryOptionsOf (Some 1%Z))).
Proof. split_and!; [done | done | done | done | by vm_compute]. Qed.

Lemma flaky_probe_resolves_after_retries_witness :
  settled flakyRun = Resolved (flakyClient 1 (Normal tt) ∅)
  ∧ countEvents isCreateClient (events flakyRun) = 1%nat
  ∧ countEvents isPing (events flakyRun) = 2%nat
  ∧ countEvents isLoggerError (events flakyRun) = 1%nat
  ∧ countEvents isTimer (events flakyRun) = 1%nat.
Proof.
  apply (@flaky_probe_resolves_after_retries (flakyLibrary 1) ∅
           (retryOptionsOf (Some 3%Z)) (flakyClient 1 (Normal tt) ∅) 1).
  - reflexivity.
  - reflexivity.
  - intros i Hi. by replace i with 0%nat by lia.
  - reflexivity.
Defined.

(** C2, as stated, fails: the probe is refused once ([k = 1]) and then
    answered; the handle is returned after one construction, not two. *)
Lemma flaky_probe_constructions_counterexample :
  @createClient (flakyLibrary 1) ∅ = Normal (flakyClient 1 (Normal tt) ∅)
  ∧ pingFailed (ping (flakyClient 1 (Normal tt) ∅) 0) = true
  ∧ pingFailed (ping (flakyClient 1 (Normal tt) ∅) 1) = false
  ∧ (1 < effectiveRetryAttempts (retryOptionsOf (Some 3%Z)))%Z
  ∧ settled flakyRun = Resolved (flakyClient 1 (Normal tt) ∅)
  ∧ countEvents isCreateClient (events flakyRun) = 1%nat
  ∧ countEvents isCreateClient (events flakyRun) ≠ 2%nat.
Proof. split_and!; [done | done | done | done | done | done | by vm_compute]. Qed.

Lemma retried_failure_logged_once_then_waits_witness :
  ∃ line,
    line = retryLine DEFAULT_CONNECTION_NAME false
             (@probeError downLibrary (ping (downClient ∅) 0)) 1
    ∧ (∃ before after,
         events downRun
         = before
             ++ [EvPing (downClient ∅);
                 EvLoggerError line
                   (stack (@probeError downLibrary (ping (downClient ∅) 0)));
                 EvTimer 0]
             ++ EvPing (downClient ∅) :: after
         ∧ countEvents isPing before = 0%nat
         ∧ countEvents isLoggerError before = 0%nat)
    ∧ occursIn (pretty 1%nat) line
    ∧ (false = true → occursIn (faultMessage (ping (downClient ∅) 0)) line)
    ∧ (false = false →
       ∀ other, line = retryLine DEFAULT_CONNECTION_NAME false other 1).
Proof.
  apply (@retried_failure_logged_once_then_waits downLibrary ∅
           (retryOptionsOf (Some 1%Z)) (downClient ∅) 0).
  - reflexivity.
  - intros j Hj. reflexivity.
  - reflexivity.
Defined.

(** C9, as stated, fails: with one retry allowed and a server that is never
    reachable, two probes fail and one error line is logged; the trace ends
    with the second failed probe. *)
Lemma exhausting_failure_not_logged_counterexample :
  (∀ i, pingFailed (ping (downClient ∅) i) = true)
  ∧ countEvents isPing (events downRun) = 2%nat
  ∧ countEvents isLoggerError (events downRun) = 1%nat
  ∧ last (events downRun) = Some (EvPing (downClient ∅))
  ∧ countEvents isLoggerError (events downRun)
    ≠ countEvents isPing (events downRun).
Proof. split_and!; [done | done | done | done | by vm_compute]. Qed.

(** The example of the specification: [{ retryAttempts: 3, retryDelay: 0 }]
    and a probe that fails twice, then succeeds. *)
Example two_failures_then_success :
  @ClickHouseCoreModule.createClickHouseClient (flakyLibrary 2) ∅
    {| connectionName := None; retryAttempts := Some 3%Z;
       retryDelay := Some 0%Z; verboseRetryLog := Some true |}
  = ([EvCreateClient ∅;
      EvPing (flakyClient 2 (Normal tt) ∅);
      EvLoggerError
        "Unable to connect to ClickHouse. Message: ECONNREFUSED. Retrying (1)..."
        "Error: ECONNREFUSED";
      EvTimer 0;
      EvPing (flakyClient 2 (Normal tt) ∅);
      EvLoggerError
        "Unable to connect to ClickHouse. Message: ECONNREFUSED. Retrying (2)..."
        "Error: ECONNREFUSED";
      EvTimer 0;
      EvPing (flakyClient 2 (Normal tt) ∅)],
     Resolved (flakyClient 2 (Normal tt) ∅)).
Proof. reflexivity. Qed.

(** A named connection, no retry fields, the server never reachable: eleven
    probes, ten lines that name the token, ten waits of 3000 ms. *)
Example named_connection_defaults :
  countEvents isPing
    (events (@ClickHouseCoreModule.forRoot_useFactory downLibrary
               {[ "name" := JsString "logs" ]})) = 11%nat
  ∧ List.filter isLoggerError
      (take 3 (events (@ClickHouseCoreModule.forRoot_useFactory downLibrary
                         {[ "name" := JsString "logs" ]})))
    = [EvLoggerError
         "Unable to connect to ClickHouse (logsClickHouseConnection). Retrying (1)..."
         "Error: ECONNREFUSED"]
  ∧ List.filter isTimer
      (take 4 (events (@ClickHouseCoreModule.forRoot_useFactory downLibrary
                         {[ "name" := JsString "logs" ]})))
    = [EvTimer 3000].
Proof. split_and!; by vm_compute. Qed.

(** ** Defaults of the retry options *)

(** C3.  When [retryAttempts], [retryDelay] or [verboseRetryLog] is omitted,
    the value the retry logic uses is the default: 10 attempts, a delay of
    3000 ms, and logging without the fault's message; these values are the
    ones [handleRetry] configures [retry] and its [delay] callback with. *)
Theorem omitted_retry_fields_take_defaults :
  (∀ name delay verbose,
     effectiveRetryAttempts
       {| connectionName := name; retryAttempts := None;
          retryDelay := delay; verboseRetryLog := verbose |} = 10%Z)
  ∧ (∀ name attempts verbose,
       effectiveRetryDelay
         {| connectionName := name; retryAttempts := attempts;
            retryDelay := None; verboseRetryLog := verbose |} = 3000%Z)
  ∧ (∀ name attempts delay,
       effectiveVerboseRetryLog
         {| connectionName := name; retryAttempts := attempts;
            retryDelay := delay; verboseRetryLog := None |} = false)
  ∧ (∀ A options (source : Rxjs.Observable A),
       handleRetry (Some options) source
       = Rxjs.retry
           {| Rxjs.count := effectiveRetryAttempts options;
              Rxjs.delay := λ e n,
                ([EvLoggerError
                    (retryLine (effectiveConnectionName options)
                       (effectiveVerboseRetryLog options) e n)
                    (stack e);
                  EvTimer (effectiveRetryDelay options)],
                 Resolved tt) |}
           source)
  ∧ (∀ A (source : Rxjs.Observable A),
       handleRetry None source
       = Rxjs.retry
           {| Rxjs.count := 10;
              Rxjs.delay := λ e n,
                ([EvLoggerError
                    (retryLine DEFAULT_CONNECTION_NAME false e n) (stack e);
                  EvTimer 3000],
                 Resolved tt) |}
           source).
Proof. split_and!; reflexivity. Qed.

(** The same from the registration: a configuration object without the
    retry fields starts up as one that spells the defaults out. *)
Lemma rest_lookup_picked picked (o : JsObject) key :
  key ∈ picked → ClickHouseCoreModule.rest picked o !! key = None.
Proof.
  unfold ClickHouseCoreModule.rest.
  induction picked as [|k picked IH]; intros Hin.
  { exfalso. by eapply not_elem_of_nil. }
  simpl. destruct (decide (k = key)) as [->|Hne].
  - apply lookup_delete_eq.
  - rewrite lookup_delete_ne by done. apply IH.
    apply elem_of_cons in Hin as [Heq|Hin]; [by subst|done].
Qed.

Lemma rest_lookup_other picked (o : JsObject) key :
  key ∉ picked → ClickHouseCoreModule.rest picked o !! key = o !! key.
Proof.
  unfold ClickHouseCoreModule.rest.
  induction picked as [|k picked IH]; intros Hin; [done|].
  simpl. rewrite lookup_delete_ne by set_solver. apply IH. set_solver.
Qed.

(** X16.  A configuration given to [forRoot] without the three retry fields
    starts up exactly as the same configuration with [retryAttempts: 10],
    [retryDelay: 3000] and [verboseRetryLog: false] spelled out: the same
    calls in the same order and the same outcome. *)
Lemma forRoot_omitted_fields_default `{ClientLibrary} (options : JsObject) :
  options !! "retryAttempts" = None →
  options !! "retryDelay" = None →
  options !! "verboseRetryLog" = None →
  ClickHouseCoreModule.forRoot_useFactory options
  = ClickHouseCoreModule.forRoot_useFactory
      (<["retryAttempts" := JsNumber 10]>
         (<["retryDelay" := JsNumber 3000]>
            (<["verboseRetryLog" := JsBoolean false]> options))).
Proof.
  intros Ha Hd Hv. unfold ClickHouseCoreModule.forRoot_useFactory.
  set (picked := ["name"; "retryAttempts"; "retryDelay"; "verboseRetryLog"]).
  set (spelled := <["retryAttempts" := _]> _).
  assert (ClickHouseCoreModule.rest picked spelled
          = ClickHouseCoreModule.rest picked options) as ->.
  { apply map_eq. intros key. destruct (decide (key ∈ picked)) as [Hin|Hout].
    - by rewrite !rest_lookup_picked.
    - rewrite !rest_lookup_other by done. unfold spelled.
      rewrite !lookup_insert_ne; [done | intros <-; set_solver ..]. }
  assert (stringProperty spelled "name" = stringProperty options "name") as ->.
  { unfold stringProperty, spelled. by rewrite !lookup_insert_ne. }
  assert (numberProperty options "retryAttempts" = None) as ->
    by (unfold numberProperty; by rewrite Ha).
  assert (numberProperty options "retryDelay" = None) as ->
    by (unfold numberProperty; by rewrite Hd).
  assert (booleanProperty options "verboseRetryLog" = None) as ->
    by (unfold booleanProperty; by rewrite Hv).
  assert (numberProperty spelled "retryAttempts" = Some 10%Z) as ->
    by (unfold numberProperty, spelled; by rewrite lookup_insert_eq).
  assert (numberProperty spelled "retryDelay" = Some 3000%Z) as ->.
  { unfold numberProperty, spelled.
    rewrite lookup_insert_ne by done. by rewrite lookup_insert_eq. }
  assert (booleanProperty spelled "verboseRetryLog" = Some false) as ->.
  { unfold booleanProperty, spelled.
    rewrite !lookup_insert_ne by done. by rewrite lookup_insert_eq. }
  reflexivity.
Qed.

(** ** Connection names and tokens *)

Lemma getConnectionToken_named name :
  name ≠ DEFAULT_CONNECTION_NAME →
  getConnectionToken (Some name) = name +:+ "ClickHouseConnection".
Proof.
  intros Hne. unfold getConnectionToken.
  by rewrite (proj2 (String.eqb_neq _ _) Hne).
Qed.

(** C4 (amended).  Name resolution maps no name and the default sentinel
    name to the same single default identifier, and every other name to the
    name followed by ["ClickHouseConnection"]; restricted to the names other
    than the sentinel it is injective, and it hits the default identifier
    for exactly one of them, the name ["Default"]. *)
Theorem connection_tokens_of_names (name1 name2 : string) :
  name1 ≠ DEFAULT_CONNECTION_NAME →
  name2 ≠ DEFAULT_CONNECTION_NAME →
  name1 ≠ name2 →
  getConnectionToken None = DEFAULT_CONNECTION_NAME
  ∧ getConnectionToken (Some DEFAULT_CONNECTION_NAME) = DEFAULT_CONNECTION_NAME
  ∧ getConnectionToken (Some name1) = name1 +:+ "ClickHouseConnection"
  ∧ getConnectionToken (Some name1) ≠ getConnectionToken (Some name2)
  ∧ (getConnectionToken (Some name1) = DEFAULT_CONNECTION_NAME
     ↔ name1 = "Default").
Proof.
  intros H1 H2 Hne. split_and!; [done | done | ..].
  - by apply getConnectionToken_named.
  - rewrite !getConnectionToken_named by done.
    intros Heq. by apply Hne, (string_app_inj_r _ _ _ Heq).
  - rewrite getConnectionToken_named by done. split.
    + intros Heq. by apply (string_app_inj_r _ _ "ClickHouseConnection").
    + by intros ->.
Qed.

Lemma connection_tokens_of_names_witness :
  getConnectionToken None = DEFAULT_CONNECTION_NAME
  ∧ getConnectionToken (Some DEFAULT_CONNECTION_NAME) = DEFAULT_CONNECTION_NAME
  ∧ getConnectionToken (Some "logs") = "logs" +:+ "ClickHouseConnection"
  ∧ getConnectionToken (Some "logs") ≠ getConnectionToken (Some "audit")
  ∧ (getConnectionToken (Some "logs") = DEFAULT_CONNECTION_NAME
     ↔ "logs" = "Default").
Proof.
  apply (connection_tokens_of_names "logs" "audit"); by vm_compute.
Defined.

(** C4, as stated, fails: the name ["Default"] is not the sentinel, and it
    resolves to the default identifier. *)
Lemma default_token_collision_counterexample :
  "Default" ≠ DEFAULT_CONNECTION_NAME
  ∧ getConnectionToken (Some "Default") = getConnectionToken None.
Proof. split; [by vm_compute | reflexivity]. Qed.

(** ** What the client constructor is given *)

Section Construction.

Import ClickHouseCoreModule.

Context `{library : ClientLibrary}.

(** X15.  [forRoot] constructs the client from the configuration without
    its four orchestration fields, whatever they hold, and with every other
    field as it was given. *)
Lemma forRoot_strips_orchestration_fields (options : JsObject) :
  ∃ clientOptions t,
    events (forRoot_useFactory options) = EvCreateClient clientOptions :: t
    ∧ clientOptions !! "name" = None
    ∧ clientOptions !! "retryAttempts" = None
    ∧ clientOptions !! "retryDelay" = None
    ∧ clientOptions !! "verboseRetryLog" = None
    ∧ ∀ key,
        key ∉ ["name"; "retryAttempts"; "retryDelay"; "verboseRetryLog"] →
        clientOptions !! key = options !! key.
Proof.
  unfold forRoot_useFactory.
  match goal with
  | |- context [createClickHouseClient ?given ?retry] =>
      destruct (createClickHouseClient_constructs given retry) as [t Ht]
  end.
  eexists _, t. split; [exact Ht|].
  split_and!; try (apply rest_lookup_picked; compute_done).
  intros key Hkey. by apply rest_lookup_other.
Qed.

(** [forRootAsync] removes the three retry fields only: the [name]
    property of the resolved configuration reaches the constructor. *)
Lemma forRootAsync_strips_retry_fields options (moduleOptions : JsObject) :
  ∃ clientOptions t,
    events (forRootAsync_useFactory options moduleOptions)
    = EvCreateClient clientOptions :: t
    ∧ clientOptions !! "name" = moduleOptions !! "name"
    ∧ clientOptions !! "retryAttempts" = None
    ∧ clientOptions !! "retryDelay" = None
    ∧ clientOptions !! "verboseRetryLog" = None
    ∧ ∀ key,
        key ∉ ["retryAttempts"; "retryDelay"; "verboseRetryLog"] →
        clientOptions !! key = moduleOptions !! key.
Proof.
  unfold forRootAsync_useFactory.
  match goal with
  | |- context [createClickHouseClient ?given ?retry] =>
      destruct (createClickHouseClient_constructs given retry) as [t Ht]
  end.
  eexists _, t. split; [exact Ht|].
  split_and!; try (apply rest_lookup_picked; compute_done).
  - apply rest_lookup_other. compute_done.
  - intros key Hkey. by apply rest_lookup_other.
Qed.

(** C5, at the failing input.  A deferred configuration that resolves to
    [{ name: "logs", url: "http://localhost:8123", retryAttempts: 3 }]:
    the constructor is called with an object that still holds [name]. *)
Theorem forRootAsync_passes_name_to_createClient options :
  ∃ clientOptions t,
    events (forRootAsync_useFactory options namedModuleOptions)
    = EvCreateClient clientOptions :: t
    ∧ clientOptions !! "name" = Some (JsString "logs")
    ∧ clientOptions !! "retryAttempts" = None.
Proof.
  destruct (forRootAsync_strips_retry_fields options namedModuleOptions)
    as (clientOptions & t & Ht & Hname & Hattempts & _).
  exists clientOptions, t. split_and!; [done | | done].
  by rewrite Hname.
Qed.

End Construction.

(** ** Shutdown *)

Section Shutdown.

Import ClickHouseCoreModule.

(** The hook when [close] fails. *)
Lemma close_fault_propagates_hook (this : Instance) client e :
  Nest.get (moduleRef this) (connectionName this) = Some client →
  close client = Throw e →
  onApplicationShutdown this
  = ([EvLoggerLog
        ("Closing ClickHouse connection (" +:+ connectionName this +:+ ")");
      EvClose client],
     Rejected e).
Proof.
  intros Hget Hclose. unfold onApplicationShutdown.
  by rewrite Hget, !bind_emit, Hclose.
Qed.

(** C6 (amended).  When closing the handle of a registered connection
    fails, the closure has been announced by a log line, the failure is
    not logged by the module and is not caught: the promise of
    [onApplicationShutdown] is rejected with the fault of [close], which
    goes to the caller, the host's shutdown sequence. *)
Theorem close_fault_propagates (this : Instance) client e :
  Nest.get (moduleRef this) (connectionName this) = Some client →
  close client = Throw e →
  onApplicationShutdown this
  = ([EvLoggerLog
        ("Closing ClickHouse connection (" +:+ connectionName this +:+ ")");
      EvClose client],
     Rejected e).
Proof.
  intros Hget Hclose. unfold onApplicationShutdown.
  by rewrite Hget, !bind_emit, Hclose.
Qed.

(** One hook: a handle held for the connection name is closed once, after
    the closure is logged; without a handle nothing is called. *)
Lemma onApplicationShutdown_own_handle (this : Instance) :
  (∀ client,
     Nest.get (moduleRef this) (connectionName this) = Some client →
     events (onApplicationShutdown this)
     = [EvLoggerLog
          ("Closing ClickHouse connection (" +:+ connectionName this +:+ ")");
        EvClose client]
     ∧ countEvents isClose (events (onApplicationShutdown this)) = 1%nat)
  ∧ (Nest.get (moduleRef this) (connectionName this) = None →
     onApplicationShutdown this = ([], Resolved tt)).
Proof.
  split.
  - intros client Hget. unfold onApplicationShutdown.
    rewrite Hget, !bind_emit. by destruct (close client).
  - intros Hget. unfold onApplicationShutdown. by rewrite Hget.
Qed.

Lemma onApplicationShutdown_closes (this : Instance) :
  countEvents isClose (events (onApplicationShutdown this))
  = (if holdsHandle this then 1 else 0)%nat.
Proof.
  unfold holdsHandle.
  destruct (Nest.get (moduleRef this) (connectionName this)) as [client|]
    eqn:Hget.
  - apply (proj1 (onApplicationShutdown_own_handle this) client Hget).
  - by rewrite (proj2 (onApplicationShutdown_own_handle this) Hget).
Qed.

(** A hook whose handle, if any, closes without a fault resolves. *)
Lemma onApplicationShutdown_resolves (this : Instance) :
  (∀ client,
     Nest.get (moduleRef this) (connectionName this) = Some client →
     close client = Normal tt) →
  settled (onApplicationShutdown this) = Resolved tt.
Proof.
  intros Hclose. unfold onApplicationShutdown.
  destruct (Nest.get (moduleRef this) (connectionName this)) as [client|]
    eqn:Hget; [|done].
  by rewrite !bind_emit, (Hclose client eq_refl).
Qed.

Lemma applicationShutdown_cons this instances :
  applicationShutdown (this :: instances)
  = onApplicationShutdown this ≫= λ _, applicationShutdown instances.
Proof. reflexivity. Qed.

(** The hooks that resolve are run through; the sequence goes on with the
    instances after them. *)
Lemma applicationShutdown_app before instances :
  (∀ this client,
     this ∈ before →
     Nest.get (moduleRef this) (connectionName this) = Some client →
     close client = Normal tt) →
  applicationShutdown (before ++ instances)
  = (flat_map (λ this, events (onApplicationShutdown this)) before
       ++ events (applicationShutdown instances),
     settled (applicationShutdown instances)).
Proof.
  induction before as [|this before IH]; intros Hclose.
  - simpl. symmetry. apply task_eta.
  - rewrite <- app_comm_cons, applicationShutdown_cons.
    rewrite IH by (intros; eapply Hclose; [by right | done]).
    pose proof (onApplicationShutdown_resolves this
                  (λ client, Hclose this client ltac:(by left))) as Hres.
    cbn [flat_map].
    destruct (onApplicationShutdown this) as [t r]. simpl in Hres. subst r.
    unfold mbind, Task_bind. cbn [events fst].
    by rewrite app_assoc.
Qed.

(** C7 (amended).  When the shutdown hook of a connection's module instance
    runs, a handle that was created for its connection name is closed
    exactly once, after the closure is logged, and when no handle was
    created for the name the hook makes no close call and raises no fault.
    Over the application shutdown, where the host runs the hooks one after
    another, this closes every created handle, once per instance that holds
    one, as long as no close fails; a close that fails ends the sequence,
    and the handles of the instances after it are not closed. *)
Theorem shutdown_closes_handles_until_a_close_fails :
  (∀ this client,
     Nest.get (moduleRef this) (connectionName this) = Some client →
     events (onApplicationShutdown this)
     = [EvLoggerLog
          ("Closing ClickHouse connection (" +:+ connectionName this +:+ ")");
        EvClose client]
     ∧ countEvents isClose (events (onApplicationShutdown this)) = 1%nat)
  ∧ (∀ this,
       Nest.get (moduleRef this) (connectionName this) = None →
       onApplicationShutdown this = ([], Resolved tt))
  ∧ (∀ instances,
       (∀ this client,
          this ∈ instances →
          Nest.get (moduleRef this) (connectionName this) = Some client →
          close client = Normal tt) →
       applicationShutdown instances
       = (flat_map (λ this, events (onApplicationShutdown this)) instances,
          Resolved tt)
       ∧ countEvents isClose (events (applicationShutdown instances))
         = length (List.filter holdsHandle instances)
       ∧ ∀ this client,
           this ∈ instances →
           Nest.get (moduleRef this) (connectionName this) = Some client →
           EvClose client ∈ events (applicationShutdown instances))
  ∧ (∀ before this client e after,
       (∀ earlier handle,
          earlier ∈ before →
          Nest.get (moduleRef earlier) (connectionName earlier) = Some handle →
          close handle = Normal tt) →
       Nest.get (moduleRef this) (connectionName this) = Some client →
       close client = Throw e →
       applicationShutdown (before ++ this :: after)
       = (flat_map (λ earlier, events (onApplicationShutdown earlier)) before
            ++ [EvLoggerLog
                  ("Closing ClickHouse connection ("
                     +:+ connectionName this +:+ ")");
                EvClose client],
          Rejected e)).
Proof.
  split_and!.
  - intros this. apply (proj1 (onApplicationShutdown_own_handle this)).
  - intros this. apply (proj2 (onApplicationShutdown_own_handle this)).
  - intros instances Hclose.
    pose proof (applicationShutdown_app instances [] Hclose) as Hrun.
    rewrite !app_nil_r in Hrun. rewrite Hrun. cbn [events fst].
    split_and!; [done | |].
    + clear. induction instances as [|this instances IH]; [done|].
      cbn [flat_map List.filter].
      rewrite countEvents_app, onApplicationShutdown_closes, IH.
      by destruct (holdsHandle this).
    + intros this client Hin Hget.
      apply list_elem_of_In, in_flat_map. exists this.
      split; [by apply list_elem_of_In|]. apply list_elem_of_In.
      rewrite (proj1 (proj1 (onApplicationShutdown_own_handle this)
                        client Hget)).
      by right; left.
  - intros before this client e after Hbefore Hget Hclose.
    rewrite (applicationShutdown_app before (this :: after) Hbefore).
    rewrite applicationShutdown_cons.
    rewrite (close_fault_propagates_hook this client e Hget Hclose).
    reflexivity.
Qed.

End Shutdown.

Lemma close_fault_propagates_witness :
  ClickHouseCoreModule.onApplicationShutdown brokenInstance
  = ([EvLoggerLog
        ("Closing ClickHouse connection ("
           +:+ DEFAULT_CONNECTION_NAME +:+ ")");
      EvClose brokenClient],
     Rejected hangUp).
Proof.
  apply (close_fault_propagates brokenInstance brokenClient hangUp);
    reflexivity.
Defined.

(** C6, as stated, fails: the handle of the default connection cannot be
    closed; the promise of the shutdown hook is rejected, not resolved, and
    no error line is logged. *)
Lemma close_fault_counterexample :
  Nest.get (ClickHouseCoreModule.moduleRef brokenInstance)
    (ClickHouseCoreModule.connectionName brokenInstance) = Some brokenClient
  ∧ close brokenClient = Throw hangUp
  ∧ settled (ClickHouseCoreModule.onApplicationShutdown brokenInstance)
    = Rejected hangUp
  ∧ settled (ClickHouseCoreModule.onApplicationShutdown brokenInstance)
    ≠ Resolved tt
  ∧ countEvents isLoggerError
      (events (ClickHouseCoreModule.onApplicationShutdown brokenInstance))
    = 0%nat.
Proof. split_and!; by vm_compute. Qed.

Lemma shutdown_closes_handles_until_a_close_fails_witness :
  (applicationShutdown [healthyInstance; idleInstance]
   = (flat_map
        (λ this, events (ClickHouseCoreModule.onApplicationShutdown this))
        [healthyInstance; idleInstance],
      Resolved tt)
   ∧ countEvents isClose
       (events (applicationShutdown [healthyInstance; idleInstance]))
     = length (List.filter holdsHandle [healthyInstance; idleInstance])
   ∧ ∀ this client,
       this ∈ [healthyInstance; idleInstance] →
       Nest.get (ClickHouseCoreModule.moduleRef this)
         (ClickHouseCoreModule.connectionName this) = Some client →
       EvClose client
         ∈ events (applicationShutdown [healthyInstance; idleInstance]))
  ∧ applicationShutdown ([healthyInstance] ++ brokenInstance :: [idleInstance])
    = (flat_map
         (λ earlier,
            events (ClickHouseCoreModule.onApplicationShutdown earlier))
         [healthyInstance]
         ++ [EvLoggerLog
               ("Closing ClickHouse connection ("
                  +:+ DEFAULT_CONNECTION_NAME +:+ ")");
             EvClose brokenClient],
       Rejected hangUp).
Proof.
  split.
  - apply (proj1 (proj2 (proj2 shutdown_closes_handles_until_a_close_fails))
             [healthyInstance; idleInstance]).
    intros this client Hin Hget.
    apply elem_of_cons in Hin as [-> | Hin].
    + vm_compute in Hget. by injection Hget as <-.
    + apply list_elem_of_singleton in Hin as ->. by vm_compute in Hget.
  - apply (proj2 (proj2 (proj2 shutdown_closes_handles_until_a_close_fails))
             [healthyInstance] brokenInstance brokenClient hangUp
             [idleInstance]).
    + intros earlier handle Hin Hget.
      apply list_elem_of_singleton in Hin as ->.
      vm_compute in Hget. by injection Hget as <-.
    + reflexivity.
    + reflexivity.
Defined.

(** C7, as stated, fails: two connections are registered and both handles
    were created; at application shutdown the close of the first fails, and
    the handle of the second is not closed at all. *)
Lemma shutdown_after_close_fault_counterexample :
  Nest.get (ClickHouseCoreModule.moduleRef healthyInstance)
    (ClickHouseCoreModule.connectionName healthyInstance)
  = Some healthyClient
  ∧ applicationShutdown [brokenInstance; healthyInstance]
    = ([EvLoggerLog
          "Closing ClickHouse connection (DefaultClickHouseConnection)";
        EvClose brokenClient],
       Rejected hangUp)
  ∧ (EvClose healthyClient
       ∉ events (applicationShutdown [brokenInstance; healthyInstance]))
  ∧ countEvents isClose
      (events (applicationShutdown [brokenInstance; healthyInstance]))
    ≠ 2%nat.
Proof.
  split_and!; [done | done | | by vm_compute].
  change (events (applicationShutdown [brokenInstance; healthyInstance]))
    with [EvLoggerLog
            "Closing ClickHouse connection (DefaultClickHouseConnection)";
          EvClose brokenClient].
  rewrite !elem_of_cons, elem_of_nil.
  intros [Heq | [Heq | []]]; [done|].
  by injection Heq as Heq.
Qed.

(** ** Asynchronous registration *)

Section Registration.

Import Nest Interfaces ClickHouseCoreModule.

Context `{library : ClientLibrary}.

(** Registration builds a module description; it never throws. *)
Lemma forRootAsync_returns options : ∃ m, forRootAsync options = Normal m.
Proof. by eexists. Qed.


(** C10.  For every connection name, also the omitted one, the marker
    [InjectClickHouse(name)] asks for exactly the token
    [getConnectionToken(name)], the token under which both registrations
    provide and export the handle of that name. *)
Theorem marker_and_token_agree :
  (∀ name,
     tokenOf (InjectClickHouse name)
     = StringToken (getConnectionToken name))
  ∧ (∀ options : JsObject, ∃ m factory,
       forRoot options = Normal m
       ∧ exports m
         = [FactoryProvider
              (tokenOf (InjectClickHouse (stringProperty options "name")))
              factory []])
  ∧ (∀ options, ∃ m factory,
       forRootAsync options = Normal m
       ∧ exports m
         = [FactoryProvider
              (tokenOf (InjectClickHouse (name options)))
              factory [Some CLICKHOUSE_MODULE_OPTIONS]]).
Proof. split_and!; [done | intros; by eexists _, _ ..]. Qed.

End Registration.




(** * Further properties of the code *)

(** ** The connection factory under any probe behaviour *)

Section FactoryRuns.

Import ClickHouseCoreModule.

Context `{library : ClientLibrary}.

(** Among the probes [0 .. n], either all fail or there is a first one
    that succeeds. *)
Lemma first_success (failed : nat -> bool) n :
  (∀ i, (i ≤ n)%nat → failed i = true)
  ∨ ∃ k, (k ≤ n)%nat ∧ (∀ i, (i < k)%nat → failed i = true)
         ∧ failed k = false.
Proof.
  induction n as [|n IH].
  - destruct (failed 0%nat) eqn:H0.
    + left. intros i Hi. by replace i with 0%nat by lia.
    + right. exists 0%nat. split_and!; [lia | intros; lia | done].
  - destruct IH as [Hall | (k & Hk & Hbefore & Hok)].
    + destruct (failed (S n)) eqn:HS.
      * left. intros i Hi.
        destruct (decide (i = S n)) as [->|]; [done | apply Hall; lia].
      * right. exists (S n).
        split_and!; [lia | intros; apply Hall; lia | done].
    + right. exists k. split_and!; [lia | done | done].
Qed.

(** The run of the factory, whatever the probes do: [k] retried failures
    and a last probe, which is the first success or, when there is none in
    time, probe number [retryAttempts]. *)
Lemma createClickHouseClient_run clientOptions retryOptions client :
  createClient clientOptions = Normal client →
  ∃ k,
    (k ≤ Z.to_nat (effectiveRetryAttempts retryOptions))%nat
    ∧ (∀ i, (i < k)%nat → pingFailed (ping client i) = true)
    ∧ (pingFailed (ping client k) = true →
       k = Z.to_nat (effectiveRetryAttempts retryOptions))
    ∧ createClickHouseClient clientOptions retryOptions
      = (EvCreateClient clientOptions
           :: flat_map
                (λ i, retryRound client retryOptions
                        (probeError (ping client i)) i)
                (seq 0 k)
           ++ [EvPing client],
         if pingFailed (ping client k)
         then Rejected (probeError (ping client k))
         else Resolved client).
Proof.
  intros Hcreate.
  rewrite (createClickHouseClient_loop _ _ client Hcreate).
  set (n := Z.to_nat (effectiveRetryAttempts retryOptions)).
  destruct (first_success (λ i, pingFailed (ping client i)) n)
    as [Hall | (k & Hk & Hbefore & Hok)].
  - exists n. split_and!; [lia | intros; apply Hall; lia | done |].
    pose proof (probe_rounds client retryOptions n 0
                  (λ i Hi, Hall i ltac:(lia)) ltac:(done)) as Hrounds.
    rewrite Nat.add_0_r in Hrounds. rewrite Hrounds.
    rewrite (subscribeForRetry_exhausted (retryConfig retryOptions)
               (probe client) 0 n _ _
               (probe_failed client n (Hall n ltac:(lia)))
               ltac:(simpl; lia)).
    by rewrite (Hall n ltac:(lia)).
  - exists k. split_and!; [done | done | by rewrite Hok |].
    pose proof (probe_rounds client retryOptions k (n - k)
                  Hbefore ltac:(lia)) as Hrounds.
    replace (k + (n - k))%nat with n in Hrounds by lia. rewrite Hrounds.
    rewrite (subscribeForRetry_value (retryConfig retryOptions)
               (probe client) (n - k) k _ _ (probe_succeeded client k Hok)).
    by rewrite Hok.
Qed.

(** X1.  Once the client is constructed, the factory returns the handle
    exactly when one of the first [retryAttempts + 1] probes succeeds (the
    last retry included), and its promise is rejected exactly when all of
    them fail. *)
Theorem factory_resolves_iff_probe_succeeds_in_time
    clientOptions retryOptions client :
  createClient clientOptions = Normal client →
  (settled (createClickHouseClient clientOptions retryOptions)
   = Resolved client
   ↔ ∃ k, (k ≤ Z.to_nat (effectiveRetryAttempts retryOptions))%nat
          ∧ pingFailed (ping client k) = false)
  ∧ ((∃ e, settled (createClickHouseClient clientOptions retryOptions)
           = Rejected e)
     ↔ ∀ i, (i ≤ Z.to_nat (effectiveRetryAttempts retryOptions))%nat →
            pingFailed (ping client i) = true).
Proof.
  intros Hcreate.
  destruct (createClickHouseClient_run clientOptions retryOptions client
              Hcreate) as (k & Hk & Hbefore & Hlast & ->).
  cbn [settled snd].
  destruct (pingFailed (ping client k)) eqn:Hpk.
  - assert (∀ i, (i ≤ Z.to_nat (effectiveRetryAttempts retryOptions))%nat →
                 pingFailed (ping client i) = true) as Hall.
    { intros i Hi. specialize (Hlast eq_refl). subst k.
      destruct (decide (i = Z.to_nat (effectiveRetryAttempts retryOptions)))
        as [->|]; [done | apply Hbefore; lia]. }
    split; split.
    + done.
    + intros (j & Hj & Hok). by rewrite (Hall j Hj) in Hok.
    + done.
    + intros _. by eexists.
  - split; split.
    + intros _. by exists k.
    + done.
    + by intros [e He].
    + intros Hall. by rewrite (Hall k Hk) in Hpk.
Qed.

(** X2.  Whatever the constructor and the probes do, the factory calls the
    constructor once, probes at most [retryAttempts + 1] times (once when
    [retryAttempts] is not positive), logs one line for every probe but the
    last, and waits once per line. *)
Theorem factory_call_counts clientOptions retryOptions :
  countEvents isCreateClient
    (events (createClickHouseClient clientOptions retryOptions)) = 1%nat
  ∧ (countEvents isPing
       (events (createClickHouseClient clientOptions retryOptions))
     ≤ S (Z.to_nat (effectiveRetryAttempts retryOptions)))%nat
  ∧ countEvents isLoggerError
      (events (createClickHouseClient clientOptions retryOptions))
    = (countEvents isPing
         (events (createClickHouseClient clientOptions retryOptions))
       - 1)%nat
  ∧ countEvents isTimer
      (events (createClickHouseClient clientOptions retryOptions))
    = countEvents isLoggerError
        (events (createClickHouseClient clientOptions retryOptions)).
Proof.
  destruct (createClient clientOptions) as [client|e] eqn:Hcreate.
  - destruct (createClickHouseClient_run clientOptions retryOptions client
                Hcreate) as (k & Hk & _ & _ & ->).
    cbn [events fst].
    rewrite !countEvents_cons, !countEvents_app.
    rewrite (countEvents_retryRounds isPing 1) by done.
    rewrite (countEvents_retryRounds isLoggerError 1) by done.
    rewrite (countEvents_retryRounds isTimer 1) by done.
    rewrite (countEvents_retryRounds isCreateClient 0) by done.
    rewrite length_seq. cbn. lia.
  - unfold createClickHouseClient. rewrite Hcreate, bind_emit.
    cbn. lia.
Qed.

(** X3.  Where the outcomes of the factory come from.  A handle it returns
    is the client the constructor returned, and the last call of the run is
    a successful probe of that client, after failures only.  An error it is
    rejected with is the constructor's, or the error of probe number
    [retryAttempts], in a run where every probe failed. *)
Theorem factory_outcome_origins clientOptions retryOptions :
  (∀ handle,
     settled (createClickHouseClient clientOptions retryOptions)
     = Resolved handle →
     createClient clientOptions = Normal handle
     ∧ ∃ k, (k ≤ Z.to_nat (effectiveRetryAttempts retryOptions))%nat
            ∧ pingFailed (ping handle k) = false
            ∧ (∀ i, (i < k)%nat → pingFailed (ping handle i) = true)
            ∧ countEvents isPing
                (events (createClickHouseClient clientOptions retryOptions))
              = S k
            ∧ last (events (createClickHouseClient clientOptions
                              retryOptions))
              = Some (EvPing handle))
  ∧ (∀ e,
       settled (createClickHouseClient clientOptions retryOptions)
       = Rejected e →
       (createClient clientOptions = Throw e
        ∧ events (createClickHouseClient clientOptions retryOptions)
          = [EvCreateClient clientOptions])
       ∨ ∃ client,
           createClient clientOptions = Normal client
           ∧ e = probeError
                   (ping client
                      (Z.to_nat (effectiveRetryAttempts retryOptions)))
           ∧ ∀ i, (i ≤ Z.to_nat (effectiveRetryAttempts retryOptions))%nat →
                  pingFailed (ping client i) = true).
Proof.
  destruct (createClient clientOptions) as [client|e0] eqn:Hcreate.
  - destruct (createClickHouseClient_run clientOptions retryOptions client
                Hcreate) as (k & Hk & Hbefore & Hlast & ->).
    cbn [events settled fst snd].
    destruct (pingFailed (ping client k)) eqn:Hpk; split_and!; try done.
    + intros e [= <-]. right. exists client.
      specialize (Hlast eq_refl). subst k. split_and!; [done | done |].
      intros i Hi.
      destruct (decide (i = Z.to_nat (effectiveRetryAttempts retryOptions)))
        as [->|]; [done | apply Hbefore; lia].
    + intros handle [= <-]. split; [done|]. exists k.
      split_and!; [done | done | done | |].
      * rewrite !countEvents_cons, !countEvents_app.
        rewrite (countEvents_retryRounds isPing 1) by done.
        rewrite length_seq. cbn. lia.
      * by rewrite app_comm_cons, last_snoc.
  - unfold createClickHouseClient. rewrite Hcreate, bind_emit.
    cbn [events settled fst snd]. split_and!; [done|].
    intros e [= <-]. by left.
Qed.

(** X4.  A fault of the constructor is not retried: the factory is
    rejected with it at once, without a probe, a log line or a wait,
    whatever the retry options. *)
Theorem construction_fault_is_not_retried clientOptions retryOptions e :
  createClient clientOptions = Throw e →
  createClickHouseClient clientOptions retryOptions
  = ([EvCreateClient clientOptions], Rejected e).
Proof.
  intros Hcreate. unfold createClickHouseClient.
  by rewrite Hcreate, bind_emit.
Qed.

(** X5.  With [retryAttempts] zero or negative nothing is retried: one
    construction, one probe, no line and no wait, and the promise settles
    as that probe does. *)
Theorem non_positive_retryAttempts_probe_once
    clientOptions retryOptions client :
  createClient clientOptions = Normal client →
  (effectiveRetryAttempts retryOptions ≤ 0)%Z →
  createClickHouseClient clientOptions retryOptions
  = ([EvCreateClient clientOptions; EvPing client],
     if pingFailed (ping client 0)
     then Rejected (probeError (ping client 0))
     else Resolved client).
Proof.
  intros Hcreate Hcount.
  destruct (createClickHouseClient_run clientOptions retryOptions client
              Hcreate) as (k & Hk & _ & _ & ->).
  by replace k with 0%nat by lia.
Qed.

(** X6.  The delay is fixed: every wait of a run lasts the configured
    [retryDelay] (3000 ms when omitted), whatever the number of failures
    before it. *)
Theorem every_wait_lasts_retryDelay clientOptions retryOptions due :
  EvTimer due ∈ events (createClickHouseClient clientOptions retryOptions) →
  due = effectiveRetryDelay retryOptions.
Proof.
  destruct (createClient clientOptions) as [client|e] eqn:Hcreate.
  - destruct (createClickHouseClient_run clientOptions retryOptions client
                Hcreate) as (k & _ & _ & _ & ->).
    cbn [events fst]. rewrite elem_of_cons, elem_of_app.
    intros [Hev | [Hev | Hev]]; [done | | ].
    + apply list_elem_of_In, in_flat_map in Hev as (i & _ & Hin).
      apply list_elem_of_In in Hin. unfold retryRound in Hin.
      rewrite !elem_of_cons in Hin.
      destruct Hin as [Hin | [Hin | [Hin | Hin]]];
        [done | done | by injection Hin | by apply elem_of_nil in Hin].
    + rewrite list_elem_of_singleton in Hev. done.
  - unfold createClickHouseClient. rewrite Hcreate, bind_emit.
    cbn [events fst]. rewrite list_elem_of_singleton. done.
Qed.

Lemma filter_retryRounds client options l :
  List.filter isLoggerError
    (flat_map (λ i, retryRound client options (probeError (ping client i)) i)
       l)
  = retryLineEvent client options <$> l.
Proof.
  induction l as [|i l IH]; [done|].
  cbn [flat_map]. rewrite List.filter_app, IH. reflexivity.
Qed.

(** X7.  The error lines of a run are numbered from 1, without gaps and in
    order: line number [i + 1] reports the failure of probe [i], and there
    are at most [retryAttempts] of them. *)
Theorem retry_lines_are_numbered_in_order clientOptions retryOptions client :
  createClient clientOptions = Normal client →
  ∃ k,
    (k ≤ Z.to_nat (effectiveRetryAttempts retryOptions))%nat
    ∧ List.filter isLoggerError
        (events (createClickHouseClient clientOptions retryOptions))
      = retryLineEvent client retryOptions <$> seq 0 k.
Proof.
  intros Hcreate.
  destruct (createClickHouseClient_run clientOptions retryOptions client
              Hcreate) as (k & Hk & _ & _ & ->).
  exists k. split; [done|]. cbn [events fst].
  change (EvCreateClient clientOptions :: ?t)
    with ([EvCreateClient clientOptions] ++ t).
  rewrite !List.filter_app, filter_retryRounds.
  cbn. by rewrite app_nil_r.
Qed.

End FactoryRuns.

(** ** Connection tokens, again *)

(** X8.  Which names share a token.  A name resolves to the default
    identifier exactly when it is omitted, the sentinel, or ["Default"]; two
    names resolve to the same token exactly when they are equal or both
    resolve to the default identifier. *)
Theorem connection_token_collisions (a b : option string) :
  (getConnectionToken a = DEFAULT_CONNECTION_NAME
   ↔ a = None ∨ a = Some DEFAULT_CONNECTION_NAME ∨ a = Some "Default")
  ∧ (getConnectionToken a = getConnectionToken b
     ↔ a = b
       ∨ (getConnectionToken a = DEFAULT_CONNECTION_NAME
          ∧ getConnectionToken b = DEFAULT_CONNECTION_NAME)).
Proof.
  split.
  - destruct a as [n|]; [|by split; auto].
    destruct (decide (n = DEFAULT_CONNECTION_NAME)) as [->|Hne].
    + split; auto.
    + rewrite getConnectionToken_named by done. split.
      * intros Heq. right; right. f_equal.
        by apply (string_app_inj_r _ _ "ClickHouseConnection").
      * intros [Heq | [Heq | Heq]]; [done | by injection Heq |].
        by injection Heq as ->.
  - split.
    + intros Heq.
      destruct (decide (getConnectionToken a = DEFAULT_CONNECTION_NAME))
        as [Ha|Ha]; [right; split; congruence|].
      left. destruct a as [n|]; [|done].
      destruct (decide (n = DEFAULT_CONNECTION_NAME)) as [->|Hn]; [done|].
      destruct b as [m|]; [|exfalso; apply Ha; exact Heq].
      destruct (decide (m = DEFAULT_CONNECTION_NAME)) as [->|Hm];
        [exfalso; apply Ha; exact Heq|].
      rewrite !getConnectionToken_named in Heq by done.
      f_equal. by apply (string_app_inj_r _ _ _ Heq).
    + intros [-> | [Ha Hb]]; congruence.
Qed.

(** X9.  A token is not a name: resolving the token of a name gives that
    token back only for the default identifier; the token of a named
    connection resolves to a longer, different token. *)
Theorem token_of_a_token (name : option string) :
  getConnectionToken (Some (getConnectionToken name))
  = getConnectionToken name
  ↔ getConnectionToken name = DEFAULT_CONNECTION_NAME.
Proof.
  split.
  - intros Heq.
    destruct (decide (getConnectionToken name = DEFAULT_CONNECTION_NAME))
      as [|Hne]; [done|].
    rewrite getConnectionToken_named in Heq by done.
    apply (f_equal String.length) in Heq.
    rewrite string_length_app in Heq. simpl in Heq. lia.
  - by intros ->.
Qed.

(** ** Registration, again *)

Section Wiring.

Import Nest Interfaces ClickHouseCoreModule.

Context `{library : ClientLibrary}.

(** X10.  Every module [forRootAsync] returns is wired the same way: its
    first provider provides the options token, the connection provider
    injects exactly that token and is the only export, the connection-name
    value is the token the connection is provided under, and a class
    provider is added exactly when neither [useExisting] nor [useFactory]
    is supplied. *)
Theorem forRootAsync_module_wiring options :
  ∃ m source injected extra connection,
    forRootAsync options = Normal m
    ∧ connection
      = FactoryProvider (StringToken (getConnectionToken (name options)))
          (ConnectionFactoryOf (forRootAsync_useFactory options))
          [Some CLICKHOUSE_MODULE_OPTIONS]
    ∧ providers m
      = FactoryProvider CLICKHOUSE_MODULE_OPTIONS source injected
          :: extra
          ++ [connection;
              ValueProvider CLICKHOUSE_CONNECTION_NAME
                (getConnectionToken (name options))]
    ∧ exports m = [connection]
    ∧ Nest.imports m = default [] (Interfaces.imports options)
    ∧ (extra = []
       ∨ extra = [ClassProvider (useClass options) (useClass options)])
    ∧ (extra = []
       ↔ is_Some (useExisting options) ∨ is_Some (useFactory options)).
Proof.
  unfold forRootAsync, createAsyncProviders, createAsyncOptionsProvider.
  destruct (useExisting options) as [existing|] eqn:Hexisting;
    destruct (useFactory options) as [f|] eqn:Hfactory; cbn.
  - eexists _, _, _, [], _. split_and!; try done; [by left|].
    split; [intros _; left; by eexists | done].
  - eexists _, _, _, [], _. split_and!; try done; [by left|].
    split; [intros _; left; by eexists | done].
  - eexists _, _, _, [], _. split_and!; try done; [by left|].
    split; [intros _; right; by eexists | done].
  - eexists _, _, _, [_], _. split_and!; try done; [by right|].
    split; [done|]. intros [[? [=]] | [? [=]]].
Qed.

(** X11.  Which source of the options wins.  [useFactory] comes first: its
    function is used with [inject] (or no dependency), and [useExisting]
    and [useClass] are ignored.  Without it, the options come from the
    instance of [useExisting], and [useClass] is ignored; only without
    both are they taken from [useClass], which is then also registered as a
    provider of its own. *)
Theorem async_options_source_precedence options :
  (∀ f, useFactory options = Some f →
     createAsyncProviders options
     = [FactoryProvider CLICKHOUSE_MODULE_OPTIONS (OptionsFunction f)
          (default [] (inject options))])
  ∧ (∀ existing,
       useFactory options = None → useExisting options = Some existing →
       createAsyncProviders options
       = [FactoryProvider CLICKHOUSE_MODULE_OPTIONS
            (OptionsDelegate (λ factory, createClickHouseOptions factory))
            [Some (ClassToken existing)]])
  ∧ (∀ class,
       useFactory options = None → useExisting options = None →
       useClass options = Some class →
       createAsyncProviders options
       = [FactoryProvider CLICKHOUSE_MODULE_OPTIONS
            (OptionsDelegate (λ factory, createClickHouseOptions factory))
            [Some (ClassToken class)];
          ClassProvider (Some class) (Some class)]).
Proof.
  unfold createAsyncProviders, createAsyncOptionsProvider. split_and!.
  - intros f ->. by destruct (useExisting options).
  - by intros existing -> ->.
  - by intros class -> -> ->.
Qed.

End Wiring.

(** ** Shutdown, again *)

Section OwnHandle.

Import ClickHouseCoreModule.

(** X12.  A module instance closes its own connection only: handles that
    the container holds under other tokens, added or removed, do not change
    what its shutdown hook does. *)
Theorem shutdown_ignores_other_connections (this : Instance) other client :
  other ≠ connectionName this →
  onApplicationShutdown
    {| connectionName := connectionName this;
       moduleRef := <[other := client]> (moduleRef this) |}
  = onApplicationShutdown this
  ∧ onApplicationShutdown
      {| connectionName := connectionName this;
         moduleRef := delete other (moduleRef this) |}
    = onApplicationShutdown this.
Proof.
  intros Hother. unfold onApplicationShutdown, Nest.get, Nest.ModuleRef in *.
  cbn [connectionName moduleRef].
  by rewrite lookup_insert_ne, lookup_delete_ne.
Qed.

End OwnHandle.

(** ** What the error lines say about the connection *)

Section Lines.

Import ClickHouseCoreModule.

Context `{library : ClientLibrary}.

Lemma retryLine_connection connectionName verbose e n :
  ∃ tail,
    retryLine connectionName verbose e n
    = (if decide (connectionName = DEFAULT_CONNECTION_NAME)
       then "Unable to connect to ClickHouse."
       else "Unable to connect to ClickHouse (" +:+ connectionName +:+ ").")
        +:+ tail.
Proof.
  unfold retryLine.
  set (detail := if verbose then _ else _).
  exists (detail +:+ " Retrying (" +:+ pretty n +:+ ")...").
  destruct (String.eqb_spec connectionName DEFAULT_CONNECTION_NAME);
    destruct (decide (connectionName = DEFAULT_CONNECTION_NAME)); try done.
  by rewrite !string_app_assoc.
Qed.

Lemma logged_line_is_retryLine clientOptions retryOptions line trace :
  EvLoggerError line trace
    ∈ events (createClickHouseClient clientOptions retryOptions) →
  ∃ e n,
    line = retryLine (effectiveConnectionName retryOptions)
             (effectiveVerboseRetryLog retryOptions) e n.
Proof.
  destruct (createClient clientOptions) as [client|e] eqn:Hcreate.
  - destruct (createClickHouseClient_run clientOptions retryOptions client
                Hcreate) as (k & _ & _ & _ & ->).
    cbn [events fst]. rewrite elem_of_cons, elem_of_app.
    intros [Hev | [Hev | Hev]]; [done | | ].
    + apply list_elem_of_In, in_flat_map in Hev as (i & _ & Hin).
      apply list_elem_of_In in Hin. unfold retryRound in Hin.
      rewrite !elem_of_cons in Hin.
      destruct Hin as [Hin | [Hin | [Hin | Hin]]];
        [done | | done | by apply elem_of_nil in Hin].
      injection Hin as -> _. by eexists _, _.
    + by rewrite list_elem_of_singleton in Hev.
  - unfold createClickHouseClient. rewrite Hcreate, bind_emit.
    cbn [events fst]. by rewrite list_elem_of_singleton.
Qed.

(** X13.  Every error line of a connection registered with [forRoot] shows
    the connection's token, not the name it was given, in parentheses after
    ["Unable to connect to ClickHouse"]; the lines of the default connection
    (no name, the sentinel, or ["Default"]) show no connection at all. *)
Theorem forRoot_lines_show_the_token (options : JsObject) line trace :
  EvLoggerError line trace ∈ events (forRoot_useFactory options) →
  ∃ tail,
    line
    = (if decide (getConnectionToken (stringProperty options "name")
                  = DEFAULT_CONNECTION_NAME)
       then "Unable to connect to ClickHouse."
       else "Unable to connect to ClickHouse ("
              +:+ getConnectionToken (stringProperty options "name")
              +:+ ").")
        +:+ tail.
Proof.
  unfold forRoot_useFactory. intros Hev.
  apply logged_line_is_retryLine in Hev as (e & n & ->).
  apply retryLine_connection.
Qed.

(** X14.  A connection registered with [forRootAsync] is named by the
    registration alone: its error lines show the token of the [name] given
    to [forRootAsync], whatever [name] the resolved configuration holds. *)
Theorem forRootAsync_lines_show_the_registered_token
    options (moduleOptions : JsObject) line trace :
  EvLoggerError line trace
    ∈ events (forRootAsync_useFactory options moduleOptions) →
  ∃ tail,
    line
    = (if decide (getConnectionToken (Interfaces.name options)
                  = DEFAULT_CONNECTION_NAME)
       then "Unable to connect to ClickHouse."
       else "Unable to connect to ClickHouse ("
              +:+ getConnectionToken (Interfaces.name options)
              +:+ ").")
        +:+ tail.
Proof.
  unfold forRootAsync_useFactory. intros Hev.
  apply logged_line_is_retryLine in Hev as (e & n & ->).
  apply retryLine_connection.
Qed.

End Lines.


(** ** The further properties at work *)

Lemma factory_resolves_iff_probe_succeeds_in_time_witness :
  (settled flakyRun = Resolved (flakyClient 1 (Normal tt) ∅)
   ↔ ∃ k, (k ≤ 3)%nat
          ∧ pingFailed (ping (flakyClient 1 (Normal tt) ∅) k) = false)
  ∧ ((∃ e, settled flakyRun = Rejected e)
     ↔ ∀ i, (i ≤ 3)%nat →
            pingFailed (ping (flakyClient 1 (Normal tt) ∅) i) = true).
Proof.
  apply (@factory_resolves_iff_probe_succeeds_in_time (flakyLibrary 1) ∅
           (retryOptionsOf (Some 3%Z)) (flakyClient 1 (Normal tt) ∅)).
  reflexivity.
Defined.

Lemma factory_outcome_origins_witness :
  @createClient (flakyLibrary 1) ∅ = Normal (flakyClient 1 (Normal tt) ∅)
  ∧ ∃ k, (k ≤ 3)%nat
         ∧ pingFailed (ping (flakyClient 1 (Normal tt) ∅) k) = false
         ∧ (∀ i, (i < k)%nat →
              pingFailed (ping (flakyClient 1 (Normal tt) ∅) i) = true)
         ∧ countEvents isPing (events flakyRun) = S k
         ∧ last (events flakyRun)
           = Some (EvPing (flakyClient 1 (Normal tt) ∅)).
Proof.
  apply (proj1 (@factory_outcome_origins (flakyLibrary 1) ∅
                  (retryOptionsOf (Some 3%Z)))
           (flakyClient 1 (Normal tt) ∅)).
  reflexivity.
Defined.

Lemma construction_fault_is_not_retried_witness :
  @ClickHouseCoreModule.createClickHouseClient strictLibrary urlOptions
    (retryOptionsOf None)
  = ([EvCreateClient urlOptions], Rejected invalidUrl).
Proof.
  apply (@construction_fault_is_not_retried strictLibrary urlOptions
           (retryOptionsOf None) invalidUrl).
  reflexivity.
Defined.

Lemma non_positive_retryAttempts_probe_once_witness :
  @ClickHouseCoreModule.createClickHouseClient downLibrary ∅
    (retryOptionsOf (Some (-2)%Z))
  = ([EvCreateClient ∅; EvPing (downClient ∅)],
     if pingFailed (ping (downClient ∅) 0)
     then Rejected (@probeError downLibrary (ping (downClient ∅) 0))
     else Resolved (downClient ∅)).
Proof.
  apply (@non_positive_retryAttempts_probe_once downLibrary ∅
           (retryOptionsOf (Some (-2)%Z)) (downClient ∅)).
  - reflexivity.
  - by vm_compute.
Defined.

Lemma every_wait_lasts_retryDelay_witness :
  0%Z = effectiveRetryDelay (retryOptionsOf (Some 1%Z)).
Proof.
  apply (@every_wait_lasts_retryDelay downLibrary ∅
           (retryOptionsOf (Some 1%Z)) 0%Z).
  apply (list_elem_of_lookup_2 _ 3). reflexivity.
Defined.

Lemma retry_lines_are_numbered_in_order_witness :
  ∃ k,
    (k ≤ 1)%nat
    ∧ List.filter isLoggerError (events downRun)
      = @retryLineEvent downLibrary (downClient ∅)
          (retryOptionsOf (Some 1%Z)) <$> seq 0 k.
Proof.
  apply (@retry_lines_are_numbered_in_order downLibrary ∅
           (retryOptionsOf (Some 1%Z)) (downClient ∅)).
  reflexivity.
Defined.

Lemma forRoot_omitted_fields_default_witness :
  @ClickHouseCoreModule.forRoot_useFactory downLibrary urlOptions
  = @ClickHouseCoreModule.forRoot_useFactory downLibrary
      (<["retryAttempts" := JsNumber 10]>
         (<["retryDelay" := JsNumber 3000]>
            (<["verboseRetryLog" := JsBoolean false]> urlOptions))).
Proof.
  apply (@forRoot_omitted_fields_default downLibrary urlOptions);
    reflexivity.
Defined.

Lemma connection_token_collisions_witness :
  getConnectionToken (Some "Default") = getConnectionToken None.
Proof.
  apply (proj2 (proj2 (connection_token_collisions (Some "Default") None))).
  right. split; reflexivity.
Defined.

Lemma token_of_a_token_witness :
  getConnectionToken (Some (getConnectionToken None))
  = getConnectionToken None.
Proof. apply (proj2 (token_of_a_token None)). reflexivity. Defined.

Lemma async_options_source_precedence_witness :
  ClickHouseCoreModule.createAsyncProviders logsAsyncOptions
  = [Nest.FactoryProvider Nest.CLICKHOUSE_MODULE_OPTIONS
       (Nest.OptionsFunction (λ _, mret urlOptions)) []].
Proof.
  apply (proj1 (async_options_source_precedence logsAsyncOptions)
           (λ _, mret urlOptions)).
  reflexivity.
Defined.

Lemma shutdown_ignores_other_connections_witness :
  ClickHouseCoreModule.onApplicationShutdown
    {| ClickHouseCoreModule.connectionName := "logsClickHouseConnection";
       ClickHouseCoreModule.moduleRef :=
         <[DEFAULT_CONNECTION_NAME := brokenClient]>
           (ClickHouseCoreModule.moduleRef healthyInstance) |}
  = ClickHouseCoreModule.onApplicationShutdown healthyInstance
  ∧ ClickHouseCoreModule.onApplicationShutdown
      {| ClickHouseCoreModule.connectionName := "logsClickHouseConnection";
         ClickHouseCoreModule.moduleRef :=
           delete DEFAULT_CONNECTION_NAME
             (ClickHouseCoreModule.moduleRef healthyInstance) |}
    = ClickHouseCoreModule.onApplicationShutdown healthyInstance.
Proof.
  apply (shutdown_ignores_other_connections healthyInstance
           DEFAULT_CONNECTION_NAME brokenClient).
  by vm_compute.
Defined.

Lemma forRoot_lines_show_the_token_witness :
  ∃ tail,
    "Unable to connect to ClickHouse (logsClickHouseConnection). Retrying (1)..."
    = "Unable to connect to ClickHouse (logsClickHouseConnection)." +:+ tail.
Proof.
  apply (@forRoot_lines_show_the_token downLibrary logsOptions
           "Unable to connect to ClickHouse (logsClickHouseConnection). Retrying (1)..."
           "Error: ECONNREFUSED").
  apply (list_elem_of_lookup_2 _ 2). reflexivity.
Defined.

Lemma forRootAsync_lines_show_the_registered_token_witness :
  ∃ tail,
    "Unable to connect to ClickHouse. Retrying (1)..."
    = "Unable to connect to ClickHouse." +:+ tail.
Proof.
  apply (@forRootAsync_lines_show_the_registered_token downLibrary
           bareAsyncOptions namedModuleOptions
           "Unable to connect to ClickHouse. Retrying (1)..."
           "Error: ECONNREFUSED").
  apply (list_elem_of_lookup_2 _ 2). reflexivity.
Defined.
